(** * Zyxel NWA50AX over SSH: the output parsers, the aggregator and the
      two mutating actions of [zyxel_ssh_api.py], with the session
      manager, the sensors, the switch and the button around them

    The development embeds [ZyxelSSHAPI] shallowly.  Text is [string];
    the alphabet is 7-bit ASCII, which is what the appliance's command
    line emits (a byte above 127 belongs to no character set below
    except the complemented ones).  The regular expressions of the source
    are written in a small abstract syntax and run by a backtracking
    matcher that tries alternatives in the order of Python's [re] module.
    Python dictionaries are finite maps with string keys over a universal
    value type; exceptions are an error type; the SSH transport is an
    oracle that answers a command with text or with a failure.  [int] is
    CPython's, with its default limit of 4300 digits on the strings it
    converts.

    The two copies of the module ([custom_components/ha_zyxel] and
    [custom_components/ha_zyxel_NWA50AX_SSH]) carry the same parsers, the
    same aggregator and the same actions, character for character in the
    regular expressions; one embedding serves both. *)

From Stdlib Require Import ZArith Ascii String DecimalString.
From stdpp Require Import base option list gmap strings.

Set Warnings "-register-all,-notation-for-abbreviation".
Local Open Scope Z_scope.

(** ** Exceptions and results *)

Inductive exn :=
| ValueError      (* int() refused its argument *)
| TypeError       (* int(None) *)
| AttributeError  (* a method called on None *)
| KeyError        (* a missing dictionary key *)
| TransportError. (* anything the SSH library raises *)

Inductive result (A : Type) :=
| Ok (a : A)
| Raise (e : exn).
Arguments Ok {A} a.
Arguments Raise {A} e.

#[global] Instance result_ret : MRet result := @Ok.
#[global] Instance result_bind : MBind result := fun A B f m =>
  match m with Ok a => f a | Raise e => Raise e end.
#[global] Instance result_fmap : FMap result := fun A B f m =>
  match m with Ok a => Ok (f a) | Raise e => Raise e end.

Definition is_Ok {A} (r : result A) : Prop := ∃ a, r = Ok a.

(** ** Python values *)

Inductive value :=
| VNone
| VBool (b : bool)
| VInt (z : Z)
| VStr (s : string)
| VList (l : list value)
| VDict (d : gmap string value).

Notation dict := (gmap string value).

(** Python truthiness, as used by [if x:] and [if d.get(k):]. *)
Definition truthy (v : value) : bool :=
  match v with
  | VNone => false
  | VBool b => b
  | VInt z => negb (z =? 0)
  | VStr s => negb (String.eqb s "")
  | VList l => match l with [] => false | _ => true end
  | VDict d => negb (bool_decide (d = ∅))
  end.

(** ** Characters and the [str] methods the parsers call *)

Module Py.

Definition code (a : ascii) : N := N_of_ascii a.

Definition in_range (lo hi a : ascii) : bool :=
  ((code lo <=? code a) && (code a <=? code hi))%N.

Definition is_digit (a : ascii) : bool := in_range "0" "9" a.

(** [str.isspace] on ASCII: tab, LF, VT, FF, CR, the four separators
    FS GS RS US, and the blank. *)
Definition is_space (a : ascii) : bool :=
  (in_range "009" "013" a || in_range "028" "031" a || Ascii.eqb a " ")%char.

Definition is_lower (a : ascii) : bool := in_range "a" "z" a.
Definition is_upper (a : ascii) : bool := in_range "A" "Z" a.

(** [\w]: letters, digits and the underscore. *)
Definition is_word (a : ascii) : bool :=
  (is_lower a || is_upper a || is_digit a || Ascii.eqb a "_")%char.

Definition to_upper (a : ascii) : ascii :=
  if is_lower a then ascii_of_N (code a - 32) else a.
Definition to_lower (a : ascii) : ascii :=
  if is_upper a then ascii_of_N (code a + 32) else a.

Fixpoint map_chars (f : ascii → ascii) (s : string) : string :=
  match s with
  | EmptyString => EmptyString
  | String a s' => String (f a) (map_chars f s')
  end.

Fixpoint all_chars (p : ascii → bool) (s : string) : bool :=
  match s with
  | EmptyString => true
  | String a s' => p a && all_chars p s'
  end.

(** [s.upper()], [s.lower()] *)
Definition upper : string → string := map_chars to_upper.
Definition lower : string → string := map_chars to_lower.

(** [s.lstrip()], [s.rstrip()], [s.strip()] *)
Fixpoint lstrip (s : string) : string :=
  match s with
  | String a s' => if is_space a then lstrip s' else s
  | EmptyString => EmptyString
  end.
Fixpoint rstrip (s : string) : string :=
  match s with
  | String a s' =>
      match rstrip s' with
      | EmptyString => if is_space a then EmptyString else String a EmptyString
      | t => String a t
      end
  | EmptyString => EmptyString
  end.
Definition strip (s : string) : string := rstrip (lstrip s).

(** ["/" in s] *)
Fixpoint contains (c : ascii) (s : string) : bool :=
  match s with
  | String a s' => Ascii.eqb a c || contains c s'
  | EmptyString => false
  end.

(** [s.split(c)[0]]: the text before the first [c]. *)
Fixpoint split_head (c : ascii) (s : string) : string :=
  match s with
  | String a s' => if Ascii.eqb a c then EmptyString else String a (split_head c s')
  | EmptyString => EmptyString
  end.

(** [sys.int_info.default_max_str_digits].  CPython (3.11 and later, and
    the security releases of 3.7 to 3.10) refuses to convert a decimal
    string of more digits to [int]: [int('1' * 4301)] raises "ValueError:
    Exceeds the limit (4300 digits) for integer string conversion". *)
Definition int_max_str_digits : nat := 4300.

Definition digit_val (a : ascii) : Z := Z.of_N (code a) - 48.

Fixpoint digits_val (acc : Z) (s : string) : Z :=
  match s with
  | String a s' => digits_val (10 * acc + digit_val a) s'
  | EmptyString => acc
  end.

(** [int(s)] for an unsigned decimal literal: one or more digits, at
    most [int_max_str_digits] of them; leading zeros count.  Python also
    accepts surrounding white space, underscores between digits and a
    plus sign; no group of the module's patterns can hold any of these,
    so they are not modelled and are refused here. *)
Definition int_digits (s : string) : result Z :=
  if all_chars is_digit s && negb (String.eqb s "") then
    if (String.length s <=? int_max_str_digits)%nat then Ok (digits_val 0 s)
    else Raise ValueError
  else Raise ValueError.

(** [int(x)] where [x] is what [match.group(i)] returned: a string of
    the shape [-?\d+], or None.  The sign does not count towards the
    digit limit. *)
Definition int (x : option string) : result Z :=
  match x with
  | None => Raise TypeError
  | Some (String a s' as s) =>
      if Ascii.eqb a "-" then n ← int_digits s'; Ok (- n) else int_digits s
  | Some EmptyString => Raise ValueError
  end.

(** A [str] method applied to what [match.group(i)] returned. *)
Definition meth (f : string → string) (x : option string) : result string :=
  match x with
  | Some s => Ok (f s)
  | None => Raise AttributeError
  end.

(** Storing what [match.group(i)] returned. *)
Definition str_or_none (x : option string) : value :=
  match x with Some s => VStr s | None => VNone end.

End Py.

(** ** Regular expressions *)

Module Re.

(** Items of a bracketed set [[...]]. *)
Inductive item :=
| Digit                  (* \d *)
| Space                  (* \s *)
| Word                   (* \w *)
| Ch (a : ascii)         (* one character *)
| Rng (lo hi : ascii).   (* lo-hi *)

(** What matches one character. *)
Inductive cset :=
| In (l : list item)     (* [...] and the classes \d \s \w *)
| NotIn (l : list item)  (* [^...] and \S *)
| Dot                    (* .  without DOTALL: anything but a newline *)
| DotAll.                (* .  under re.DOTALL *)

Definition item_mem (i : item) (a : ascii) : bool :=
  match i with
  | Digit => Py.is_digit a
  | Space => Py.is_space a
  | Word => Py.is_word a
  | Ch c => Ascii.eqb a c
  | Rng lo hi => Py.in_range lo hi a
  end.

Definition cset_mem (cs : cset) (a : ascii) : bool :=
  match cs with
  | In l => existsb (fun i => item_mem i a) l
  | NotIn l => negb (existsb (fun i => item_mem i a) l)
  | Dot => negb (Ascii.eqb a "010")
  | DotAll => true
  end.

(** The fragment of [re] syntax the module uses.  Every quantifier of
    the source applies to one character set, so the quantifiers take a
    [cset]; groups are numbered as Python numbers them, by their opening
    parenthesis. *)
Inductive regex :=
| Lit (s : string)          (* literal text *)
| One (cs : cset)           (* one character of the set *)
| Star (cs : cset)          (* cs*   greedy *)
| Plus (cs : cset)          (* cs+   greedy *)
| Opt (cs : cset)           (* cs?   greedy *)
| StarLazy (cs : cset)      (* cs*?  *)
| Group (n : nat) (r : regex)   (* ( r ) *)
| Alt (r1 r2 : regex)       (* r1|r2 *)
| Seq (r1 r2 : regex)       (* r1r2 *)
| Eos.                      (* $  without MULTILINE *)

Definition cat (l : list regex) : regex := foldr Seq (Lit "") l.

Definition digit : cset := In [Digit].        (* \d *)
Definition space : cset := In [Space].        (* \s *)
Definition nonspace : cset := NotIn [Space].  (* \S *)
Definition word : cset := In [Word].          (* \w *)

Notation caps := (gmap nat string).

Section Matcher.
Context {R : Type}.

(** The continuation receives the text consumed, the text left and the
    groups set so far; [None] makes the matcher backtrack. *)

Fixpoint lit (l t : string) : option string :=
  match l, t with
  | EmptyString, _ => Some t
  | String a l', String b t' => if Ascii.eqb a b then lit l' t' else None
  | String _ _, EmptyString => None
  end.

Fixpoint star_greedy (p : ascii → bool) (t : string)
    (k : string → string → option R) : option R :=
  match t with
  | String a t' =>
      if p a then
        match star_greedy p t' (fun u rest => k (String a u) rest) with
        | Some x => Some x
        | None => k "" t
        end
      else k "" t
  | EmptyString => k "" ""
  end.

Fixpoint star_lazy (p : ascii → bool) (t : string)
    (k : string → string → option R) : option R :=
  match k "" t with
  | Some x => Some x
  | None =>
      match t with
      | String a t' =>
          if p a then star_lazy p t' (fun u rest => k (String a u) rest)
          else None
      | EmptyString => None
      end
  end.

Fixpoint run (r : regex) (t : string) (c : caps)
    (k : string → string → caps → option R) : option R :=
  match r with
  | Lit l => match lit l t with Some rest => k l rest c | None => None end
  | One cs =>
      match t with
      | String a t' => if cset_mem cs a then k (String a "") t' c else None
      | EmptyString => None
      end
  | Star cs => star_greedy (cset_mem cs) t (fun u rest => k u rest c)
  | Plus cs =>
      match t with
      | String a t' =>
          if cset_mem cs a
          then star_greedy (cset_mem cs) t' (fun u rest => k (String a u) rest c)
          else None
      | EmptyString => None
      end
  | Opt cs =>
      match t with
      | String a t' =>
          if cset_mem cs a then
            match k (String a "") t' c with
            | Some x => Some x
            | None => k "" t c
            end
          else k "" t c
      | EmptyString => k "" "" c
      end
  | StarLazy cs => star_lazy (cset_mem cs) t (fun u rest => k u rest c)
  | Group n r' => run r' t c (fun u rest c' => k u rest (<[n:=u]> c'))
  | Alt r1 r2 =>
      match run r1 t c k with
      | Some x => Some x
      | None => run r2 t c k
      end
  | Seq r1 r2 =>
      run r1 t c (fun u1 t1 c1 =>
        run r2 t1 c1 (fun u2 t2 c2 => k (u1 +:+ u2) t2 c2))
  | Eos =>
      match t with
      | EmptyString => k "" t c
      | String "010" EmptyString => k "" t c
      | _ => None
      end
  end.
End Matcher.

(** A match: the text matched, the text after it, the groups. *)
Record rmatch := { matched : string; after : string; groups : caps }.

(** [match.group(i)] *)
Definition group (m : rmatch) (i : nat) : option string := groups m !! i.

(** The pattern anchored at the head of [t] (what [re.match] does). *)
Definition match_here (r : regex) (t : string) : option rmatch :=
  run r t ∅ (fun u rest c => Some {| matched := u; after := rest; groups := c |}).

(** [re.search(r, t)]: the first position, from the left, where the
    pattern matches; the end of the text is a position too. *)
Fixpoint search (r : regex) (t : string) : option rmatch :=
  match match_here r t with
  | Some m => Some m
  | None =>
      match t with
      | String _ t' => search r t'
      | EmptyString => None
      end
  end.

(** The successive non-overlapping matches, left to right, each with
    the text that separates it from the previous one, and the text after
    the last match.  [skip] counts the characters of the current match
    still to step over; [gap] is the separating text read so far,
    reversed.  No pattern of the module matches the empty string (each
    one has a mandatory literal), so the rule for an empty match, here
    a step of one character, is never exercised. *)
Fixpoint scan (r : regex) (t : string) (skip : nat) (gap : string)
    : list (string * rmatch) * string :=
  match skip with
  | S n =>
      match t with
      | String _ t' => scan r t' n gap
      | EmptyString => ([], String.rev gap)
      end
  | O =>
      match match_here r t with
      | Some m =>
          match t with
          | String a t' =>
              let '(ms, tl) :=
                match String.length (matched m) with
                | O => scan r t' 0 (String a "")
                | S n => scan r t' n ""
                end in
              ((String.rev gap, m) :: ms, tl)
          | EmptyString => ([(String.rev gap, m)], "")
          end
      | None =>
          match t with
          | String a t' => scan r t' 0 (String a gap)
          | EmptyString => ([], String.rev gap)
          end
      end
  end.

Definition finditer (r : regex) (t : string) : list rmatch :=
  (fst (scan r t 0 "")).*2.

(** [re.findall] returns, per match, the group when the pattern has one
    group and the tuple of groups when it has several; a group that did
    not take part gives the empty string. *)
Definition group_text (m : rmatch) (i : nat) : string := default "" (group m i).

Definition findall1 (r : regex) (t : string) : list string :=
  (fun m => group_text m 1) <$> finditer r t.
Definition findall2 (r : regex) (t : string) : list (string * string) :=
  (fun m => (group_text m 1, group_text m 2)) <$> finditer r t.
Definition findall4 (r : regex) (t : string)
    : list (string * string * string * string) :=
  (fun m => (group_text m 1, group_text m 2, group_text m 3, group_text m 4))
    <$> finditer r t.

(** [re.split(r, t)] for a pattern without groups. *)
Definition split (r : regex) (t : string) : list string :=
  let '(ms, tl) := scan r t 0 "" in ms.*1 ++ [tl].

End Re.

(** ** The parsers of [ZyxelSSHAPI] *)

Module Pat.
Import Re.
Local Open Scope char_scope.

(** [label\s*:\s*(.+)] *)
Definition model : regex :=
  cat [Lit "model"; Star space; Lit ":"; Star space; Group 1 (Plus Dot)].
Definition firmware : regex :=
  cat [Lit "firmware version"; Star space; Lit ":"; Star space; Group 1 (Plus Dot)].
Definition build : regex :=
  cat [Lit "build date"; Star space; Lit ":"; Star space; Group 1 (Plus Dot)].

(** [(\d+)\s+days?\s+(\d+):(\d+):(\d+)] *)
Definition uptime_days : regex :=
  cat [Group 1 (Plus digit); Plus space; Lit "day"; Opt (In [Ch "s"]); Plus space;
       Group 2 (Plus digit); Lit ":"; Group 3 (Plus digit); Lit ":";
       Group 4 (Plus digit)].
(** [(\d+):(\d+):(\d+)] *)
Definition uptime_hms : regex :=
  cat [Group 1 (Plus digit); Lit ":"; Group 2 (Plus digit); Lit ":";
       Group 3 (Plus digit)].

(** [CPU core (\d+) utilization:\s*(\d+)\s*%] and its two siblings *)
Definition core_pattern : regex :=
  cat [Lit "CPU core "; Group 1 (Plus digit); Lit " utilization:"; Star space;
       Group 2 (Plus digit); Star space; Lit "%"].
Definition core_1min_pattern : regex :=
  cat [Lit "CPU core "; Group 1 (Plus digit); Lit " utilization for 1 min:";
       Star space; Group 2 (Plus digit); Star space; Lit "%"].
Definition core_5min_pattern : regex :=
  cat [Lit "CPU core "; Group 1 (Plus digit); Lit " utilization for 5 min:";
       Star space; Group 2 (Plus digit); Star space; Lit "%"].

(** [memory usage:\s*(\d+)\s*%] *)
Definition memory : regex :=
  cat [Lit "memory usage:"; Star space; Group 1 (Plus digit); Star space; Lit "%"].

(** [index:\s*\d+] *)
Definition index : regex := cat [Lit "index:"; Star space; Plus digit].
(** [MAC:\s*([\da-fA-F:]+)] *)
Definition mac : regex :=
  cat [Lit "MAC:"; Star space;
       Group 1 (Plus (In [Digit; Rng "a" "f"; Rng "A" "F"; Ch ":"]))].
(** [IPv4:\s*([\d.]+)] *)
Definition ipv4 : regex :=
  cat [Lit "IPv4:"; Star space; Group 1 (Plus (In [Digit; Ch "."]))].
(** [Display SSID:\s*(.+)], [SSID:\s*(.+)], [Security:\s*(.+)] *)
Definition display_ssid : regex :=
  cat [Lit "Display SSID:"; Star space; Group 1 (Plus Dot)].
Definition ssid : regex := cat [Lit "SSID:"; Star space; Group 1 (Plus Dot)].
Definition security : regex := cat [Lit "Security:"; Star space; Group 1 (Plus Dot)].
(** [RSSI dBm:\s*(-?\d+)] *)
Definition rssi_dbm : regex :=
  cat [Lit "RSSI dBm:"; Star space; Group 1 (Seq (Opt (In [Ch "-"])) (Plus digit))].
(** [RSSI:\s*(\d+)] *)
Definition rssi : regex := cat [Lit "RSSI:"; Star space; Group 1 (Plus digit)].
(** [Band:\s*([\dG.Hz]+)] *)
Definition band : regex :=
  cat [Lit "Band:"; Star space;
       Group 1 (Plus (In [Digit; Ch "G"; Ch "."; Ch "H"; Ch "z"]))].
(** [Slot:\s*(\d+)] *)
Definition slot : regex := cat [Lit "Slot:"; Star space; Group 1 (Plus digit)].
(** [TxRate:\s*(\d+)M], [RxRate:\s*(\d+)M] *)
Definition tx_rate : regex :=
  cat [Lit "TxRate:"; Star space; Group 1 (Plus digit); Lit "M"].
Definition rx_rate : regex :=
  cat [Lit "RxRate:"; Star space; Group 1 (Plus digit); Lit "M"].
(** [Capability:\s*(.+)], [Time:\s*(.+)] *)
Definition capability : regex :=
  cat [Lit "Capability:"; Star space; Group 1 (Plus Dot)].
Definition time : regex := cat [Lit "Time:"; Star space; Group 1 (Plus Dot)].

(** [lan\s+Up\s+([\d.]+)\s+([\d.]+)] *)
Definition lan : regex :=
  cat [Lit "lan"; Plus space; Lit "Up"; Plus space;
       Group 1 (Plus (In [Digit; Ch "."])); Plus space;
       Group 2 (Plus (In [Digit; Ch "."]))].
(** [(\d+)\s+(\S+)\s+(Up|Down|n/a)\s+([\d.]+|n/a)] *)
Definition interface_line : regex :=
  cat [Group 1 (Plus digit); Plus space; Group 2 (Plus nonspace); Plus space;
       Group 3 (Alt (Lit "Up") (Alt (Lit "Down") (Lit "n/a"))); Plus space;
       Group 4 (Alt (Plus (In [Digit; Ch "."])) (Lit "n/a"))].

(** [slot: slotN.*?Activate: (\w+).*?Band: ([\dG.]+)] under re.DOTALL *)
Definition slot_match (name : string) : regex :=
  cat [Lit ("slot: " +:+ name); StarLazy DotAll; Lit "Activate: ";
       Group 1 (Plus word); StarLazy DotAll; Lit "Band: ";
       Group 2 (Plus (In [Digit; Ch "G"; Ch "."]))].
(** [slot: slot1(.*?)(?:slot: slot2|$)] under re.DOTALL *)
Definition slot1_block : regex :=
  cat [Lit "slot: slot1"; Group 1 (StarLazy DotAll); Alt (Lit "slot: slot2") Eos].
(** [slot: slot2(.*?)$] under re.DOTALL *)
Definition slot2_block : regex :=
  cat [Lit "slot: slot2"; Group 1 (StarLazy DotAll); Eos].
(** [SSID_profile_\d+:\s*(\S+)] *)
Definition ssid_profile : regex :=
  cat [Lit "SSID_profile_"; Plus digit; Lit ":"; Star space; Group 1 (Plus nonspace)].

(** [1\s+(\S+)\s+\d+\s+\d+\s+\d+\s+\d+\s+\d+\s+(\d+)\s+(\d+)\s+([\d:]+)\s+\d+\s+(\d+)\s+(\d+)] *)
Definition port : regex :=
  cat [Lit "1"; Plus space; Group 1 (Plus nonspace); Plus space;
       Plus digit; Plus space; Plus digit; Plus space; Plus digit; Plus space;
       Plus digit; Plus space; Plus digit; Plus space;
       Group 2 (Plus digit); Plus space; Group 3 (Plus digit); Plus space;
       Group 4 (Plus (In [Digit; Ch ":"])); Plus space; Plus digit; Plus space;
       Group 5 (Plus digit); Plus space; Group 6 (Plus digit)].
End Pat.

(** [if m: d[key] = f(m)] *)
Definition set_if (m : option Re.rmatch) (key : string)
    (f : Re.rmatch → result value) (d : dict) : result dict :=
  match m with
  | Some mm => v ← f mm; Ok (<[key:=v]> d)
  | None => Ok d
  end.

(** [m.group(i).strip()], [int(m.group(i))], [m.group(i)] as values *)
Definition stripped (i : nat) (m : Re.rmatch) : result value :=
  VStr <$> Py.meth Py.strip (Re.group m i).
Definition as_int (i : nat) (m : Re.rmatch) : result value :=
  VInt <$> Py.int (Re.group m i).
Definition as_is (i : nat) (m : Re.rmatch) : result value :=
  Ok (Py.str_or_none (Re.group m i)).

Definition py_sum (l : list Z) : Z := foldr Z.add 0 l.

(** [sum(int(c[1]) for c in cores) // len(cores)] *)
Definition average (cores : list (string * string)) : result Z :=
  xs ← mapM (fun c => Py.int (Some c.2)) cores;
  Ok (py_sum xs `div` Z.of_nat (length cores)).

Definition _parse_version (output : string) : result dict :=
  let info : dict :=
    {[ "model" := VStr "Unknown"; "firmware" := VStr "Unknown";
       "build_date" := VStr "Unknown" ]} in
  info ← set_if (Re.search Pat.model output) "model" (stripped 1) info;
  info ← set_if (Re.search Pat.firmware output) "firmware" (stripped 1) info;
  info ← set_if (Re.search Pat.build output) "build_date" (stripped 1) info;
  Ok info.

Definition _parse_uptime (output : string) : result Z :=
  match Re.search Pat.uptime_days output with
  | Some m =>
      days ← Py.int (Re.group m 1);
      hours ← Py.int (Re.group m 2);
      minutes ← Py.int (Re.group m 3);
      seconds ← Py.int (Re.group m 4);
      Ok (days * 86400 + hours * 3600 + minutes * 60 + seconds)
  | None =>
      match Re.search Pat.uptime_hms output with
      | Some m =>
          hours ← Py.int (Re.group m 1);
          minutes ← Py.int (Re.group m 2);
          seconds ← Py.int (Re.group m 3);
          Ok (hours * 3600 + minutes * 60 + seconds)
      | None => Ok 0
      end
  end.

Definition _parse_cpu (output : string) : result dict :=
  let cpu_data : dict :=
    {[ "current" := VInt 0; "avg_1min" := VInt 0; "avg_5min" := VInt 0;
       "cores" := VList [] ]} in
  let cores_current := Re.findall2 Pat.core_pattern output in
  let cores_1min := Re.findall2 Pat.core_1min_pattern output in
  let cores_5min := Re.findall2 Pat.core_5min_pattern output in
  cpu_data ←
    (if bool_decide (cores_current ≠ []) then
       cur ← average cores_current;
       cores ← mapM (fun c => Py.int (Some c.2)) cores_current;
       Ok (<["cores" := VList (VInt <$> cores)]> (<["current" := VInt cur]> cpu_data))
     else Ok cpu_data);
  cpu_data ←
    (if bool_decide (cores_1min ≠ []) then
       avg ← average cores_1min; Ok (<["avg_1min" := VInt avg]> cpu_data)
     else Ok cpu_data);
  cpu_data ←
    (if bool_decide (cores_5min ≠ []) then
       avg ← average cores_5min; Ok (<["avg_5min" := VInt avg]> cpu_data)
     else Ok cpu_data);
  Ok cpu_data.

Definition _parse_memory (output : string) : result Z :=
  match Re.search Pat.memory output with
  | Some m => Py.int (Re.group m 1)
  | None => Ok 0
  end.

(** The body of the loop of [_parse_clients]: the record of one block. *)
Definition parse_client (block : string) : result dict :=
  let client : dict := ∅ in
  client ← set_if (Re.search Pat.mac block) "mac"
             (fun m => VStr <$> Py.meth Py.upper (Re.group m 1)) client;
  client ← set_if (Re.search Pat.ipv4 block) "ip" (as_is 1) client;
  client ←
    match Re.search Pat.display_ssid block with
    | Some m => v ← stripped 1 m; Ok (<["ssid" := v]> client)
    | None =>
        match Re.search Pat.ssid block with
        | Some _ =>
            match Re.search Pat.ssid block with
            | Some m => v ← stripped 1 m; Ok (<["ssid" := v]> client)
            | None => Raise AttributeError
            end
        | None => Ok client
        end
    end;
  client ← set_if (Re.search Pat.security block) "security" (stripped 1) client;
  client ← set_if (Re.search Pat.rssi_dbm block) "rssi_dbm" (as_int 1) client;
  client ← set_if (Re.search Pat.rssi block) "rssi_percent" (as_int 1) client;
  client ← set_if (Re.search Pat.band block) "band" (as_is 1) client;
  client ← set_if (Re.search Pat.slot block) "slot" (as_int 1) client;
  client ← set_if (Re.search Pat.tx_rate block) "tx_rate" (as_int 1) client;
  client ← set_if (Re.search Pat.rx_rate block) "rx_rate" (as_int 1) client;
  client ← set_if (Re.search Pat.capability block) "capability" (stripped 1) client;
  client ← set_if (Re.search Pat.time block) "connected_since" (stripped 1) client;
  Ok client.

(** [client.get("mac")] *)
Definition has_mac (client : dict) : bool := truthy (default VNone (client !! "mac")).

Definition _parse_clients (output : string) : result (list dict) :=
  let client_blocks := Re.split Pat.index output in
  records ← mapM parse_client (tail client_blocks);
  Ok (filter (fun c => has_mac c = true) records).

Definition interface_record (iface : string * string * string * string) : value :=
  let '(_, name, status, ip) := iface in
  VDict {[ "name" := VStr name; "status" := VStr status;
           "ip" := if bool_decide (ip ≠ "n/a") then VStr ip else VNone ]}.

Definition _parse_interfaces (output : string) : result dict :=
  let network : dict :=
    {[ "ip_address" := VStr "Unknown"; "netmask" := VStr "Unknown";
       "interfaces" := VList [] ]} in
  network ←
    match Re.search Pat.lan output with
    | Some m =>
        Ok (<["netmask" := Py.str_or_none (Re.group m 2)]>
              (<["ip_address" := Py.str_or_none (Re.group m 1)]> network))
    | None => Ok network
    end;
  let interface_lines := Re.findall4 Pat.interface_line output in
  Ok (<["interfaces" := VList (interface_record <$> interface_lines)]> network).

(** [[s for s in re.findall(ssid_profile, block) if s]] *)
Definition ssids_of (block : option string) : result value :=
  match block with
  | Some b =>
      Ok (VList (VStr <$> filter (fun s => s ≠ "") (Re.findall1 Pat.ssid_profile b)))
  | None => Raise TypeError
  end.

Definition is_yes (i : nat) (m : Re.rmatch) : result value :=
  g ← Py.meth Py.lower (Re.group m i); Ok (VBool (String.eqb g "yes")).

Definition _parse_wlan (output : string) : result dict :=
  let radio : dict :=
    {[ "slot1_active" := VBool false; "slot1_band" := VStr "Unknown";
       "slot1_ssids" := VList [];
       "slot2_active" := VBool false; "slot2_band" := VStr "Unknown";
       "slot2_ssids" := VList [] ]} in
  let slot1_match := Re.search (Pat.slot_match "slot1") output in
  radio ← set_if slot1_match "slot1_active" (is_yes 1) radio;
  radio ← set_if slot1_match "slot1_band" (as_is 2) radio;
  radio ← set_if (Re.search Pat.slot1_block output) "slot1_ssids"
            (fun m => ssids_of (Re.group m 1)) radio;
  let slot2_match := Re.search (Pat.slot_match "slot2") output in
  radio ← set_if slot2_match "slot2_active" (is_yes 1) radio;
  radio ← set_if slot2_match "slot2_band" (as_is 2) radio;
  radio ← set_if (Re.search Pat.slot2_block output) "slot2_ssids"
            (fun m => ssids_of (Re.group m 1)) radio;
  Ok radio.

Definition _parse_port_status (output : string) : result dict :=
  let port : dict :=
    {[ "status" := VStr "Unknown"; "speed" := VStr "Unknown";
       "tx_bytes" := VInt 0; "rx_bytes" := VInt 0;
       "tx_rate" := VInt 0; "rx_rate" := VInt 0; "uptime" := VStr "Unknown" ]} in
  match Re.search Pat.port output with
  | Some m =>
      let status := Re.group m 1 in
      let port := <["status" := Py.str_or_none status]> port in
      tx_rate ← Py.int (Re.group m 2);
      let port := <["tx_rate" := VInt tx_rate]> port in
      rx_rate ← Py.int (Re.group m 3);
      let port := <["rx_rate" := VInt rx_rate]> port in
      let port := <["uptime" := Py.str_or_none (Re.group m 4)]> port in
      tx_bytes ← Py.int (Re.group m 5);
      let port := <["tx_bytes" := VInt tx_bytes]> port in
      rx_bytes ← Py.int (Re.group m 6);
      let port := <["rx_bytes" := VInt rx_bytes]> port in
      match status with
      | Some st =>
          if Py.contains "/" st
          then Ok (<["speed" := VStr (Py.split_head "/" st)]> port)
          else Ok port
      | None => Raise TypeError
      end
  | None => Ok port
  end.

(** ** The session and the command runner *)

(** What an observer of the API object sees: the calls of
    [async_execute_command] and the pauses. *)
Inductive event :=
| Call (command : string)
| Sleep (ms : N).

(** The object's state.  [device] is the far end: what running a command
    gives after a given history, text or an exception of the SSH library
    (time-out, non-zero exit status, lost connection). *)
Record session := {
  HAS_ASYNCSSH : bool;
  HAS_PARAMIKO : bool;
  conn : bool;
  device : list event → string → result string;
  trace : list event;
}.

Definition with_trace (σ : session) (tr : list event) : session :=
  {| HAS_ASYNCSSH := HAS_ASYNCSSH σ; HAS_PARAMIKO := HAS_PARAMIKO σ;
     conn := conn σ; device := device σ; trace := tr |}.

(** Computations over a state [St] that may raise; the state survives an
    exception, as Python's heap does. *)
Definition M (St A : Type) : Type := St → result A * St.

#[global] Instance M_ret {St} : MRet (M St) := fun A a σ => (Ok a, σ).
#[global] Instance M_bind {St} : MBind (M St) := fun A B f m σ =>
  match m σ with
  | (Ok a, σ') => f a σ'
  | (Raise e, σ') => (Raise e, σ')
  end.

(** [try: m  except Exception: h] *)
Definition try_except {St A} (m : M St A) (h : exn → M St A) : M St A := fun σ =>
  match m σ with
  | (Ok a, σ') => (Ok a, σ')
  | (Raise e, σ') => h e σ'
  end.

Definition get {St} : M St St := fun σ => (Ok σ, σ).
Definition log (e : event) : M session () := fun σ =>
  (Ok (), with_trace σ (trace σ ++ [e])).
(** The SSH library runs the command on the device. *)
Definition transport (command : string) : M session string := fun σ =>
  (device σ (trace σ) command, σ).

(** [_execute_command_sync]: the persistent paramiko client or a
    temporary one; every exception becomes None. *)
Definition _execute_command_sync (command : string) : M session (option string) :=
  try_except (output ← transport command; mret (Some output))
             (fun _ => mret None).

(** In the older copy [HAS_PARAMIKO] is left unbound when asyncssh was
    imported; reading it then raises NameError inside the [try], which
    gives None as a false flag does. *)
Definition async_execute_command (command : string) : M session (option string) :=
  _ ← log (Call command);
  try_except
    (σ ← get;
     if HAS_ASYNCSSH σ && conn σ then
       stdout ← transport command; mret (Some stdout)
     else if HAS_PARAMIKO σ then _execute_command_sync command
     else mret None)
    (fun _ => mret None).

(** [await asyncio.sleep(0.5)] *)
Definition asyncio_sleep (ms : N) : M session () := log (Sleep ms).

(** ** The aggregator *)

(** The aggregator runs with one local, [data], next to the session. *)
Definition on_session {X A} (m : M session A) : M (session * X) A := fun '(σ, x) =>
  let '(r, σ') := m σ in (r, (σ', x)).
Definition parse {St A} (r : result A) : M St A := fun σ => (r, σ).
Definition update {A} (f : dict → result dict) : M (A * dict) () := fun '(σ, data) =>
  match f data with
  | Ok data' => (Ok (), (σ, data'))
  | Raise e => (Raise e, (σ, data))
  end.

(** [data[k] = v] and [data[k1][k2] = v] *)
Definition set_item (k : string) (v : value) (data : dict) : result dict :=
  Ok (<[k:=v]> data).
Definition set_item2 (k1 k2 : string) (v : value) (data : dict) : result dict :=
  match data !! k1 with
  | Some (VDict inner) => Ok (<[k1 := VDict (<[k2:=v]> inner)]> data)
  | Some _ => Raise TypeError
  | None => Raise KeyError
  end.

(** [if output: ...] for an optional string: None and the empty string
    are both false. *)
Definition if_output {St} (output : option string) (body : string → M St ()) : M St () :=
  match output with
  | Some text => if String.eqb text "" then mret () else body text
  | None => mret ()
  end.

Definition empty_snapshot : dict :=
  {[ "device_info" := VDict ∅; "status" := VDict ∅; "clients" := VList [];
     "network" := VDict ∅; "radio" := VDict ∅ ]}.

Definition fetch_all : M (session * dict) () :=
  version_output ← on_session (async_execute_command "show version");
  _ ← if_output version_output (fun text =>
        v ← parse (_parse_version text); update (set_item "device_info" (VDict v)));
  uptime_output ← on_session (async_execute_command "show system uptime");
  _ ← if_output uptime_output (fun text =>
        v ← parse (_parse_uptime text); update (set_item2 "status" "uptime" (VInt v)));
  cpu_output ← on_session (async_execute_command "show cpu all");
  _ ← if_output cpu_output (fun text =>
        v ← parse (_parse_cpu text); update (set_item2 "status" "cpu" (VDict v)));
  mem_output ← on_session (async_execute_command "show mem status");
  _ ← if_output mem_output (fun text =>
        v ← parse (_parse_memory text); update (set_item2 "status" "memory" (VInt v)));
  clients_output ← on_session (async_execute_command "show wireless-hal station info");
  _ ← if_output clients_output (fun text =>
        v ← parse (_parse_clients text);
        update (set_item "clients" (VList (VDict <$> v))));
  interface_output ← on_session (async_execute_command "show interface all");
  _ ← if_output interface_output (fun text =>
        v ← parse (_parse_interfaces text); update (set_item "network" (VDict v)));
  wlan_output ← on_session (async_execute_command "show wlan all");
  _ ← if_output wlan_output (fun text =>
        v ← parse (_parse_wlan text); update (set_item "radio" (VDict v)));
  port_output ← on_session (async_execute_command "show port status");
  if_output port_output (fun text =>
        v ← parse (_parse_port_status text);
        update (set_item2 "network" "port" (VDict v))).

Definition async_get_data : M session dict := fun σ =>
  let '(_, (σ', data)) :=
    try_except fetch_all (fun _ => mret ()) (σ, empty_snapshot) in
  (Ok data, σ').

(** ** The mutating actions *)

Definition async_reboot : M session bool :=
  try_except
    (result ← async_execute_command "reboot";
     match result with
     | Some _ => mret true
     | None => mret false
     end)
    (fun _ => mret false).

Definition guest_commands (enable : bool) : list string :=
  if enable then
    ["configure terminal"; "wlan-ssid-profile Guest"; "no ssid-schedule"; "exit"; "write"]
  else
    ["configure terminal"; "wlan-ssid-profile Guest"; "ssid-schedule"; "exit"; "write"].

(** [for cmd in commands: await execute(cmd); await asyncio.sleep(0.5)] *)
Fixpoint send_all (commands : list string) : M session () :=
  match commands with
  | [] => mret ()
  | cmd :: rest =>
      _ ← async_execute_command cmd;
      _ ← asyncio_sleep 500;
      send_all rest
  end.

Definition async_toggle_guest_ssid (enable : bool) : M session bool :=
  try_except
    (_ ← send_all (guest_commands enable); mret true)
    (fun _ => mret false).

(** ** What a match means *)

Module ReSpec.
Import Re.

(** [Matches r u rest c c']: the pattern [r] accepts the text [u] when
    [rest] follows it, and turns the groups [c] into [c'].  The relation
    says which texts a pattern accepts, not which one the matcher
    prefers. *)
Inductive Matches : regex → string → string → caps → caps → Prop :=
| M_lit l rest c : Matches (Lit l) l rest c c
| M_one cs a rest c :
    cset_mem cs a = true → Matches (One cs) (String a "") rest c c
| M_star cs u rest c :
    Py.all_chars (cset_mem cs) u = true → Matches (Star cs) u rest c c
| M_plus cs u rest c :
    u ≠ "" → Py.all_chars (cset_mem cs) u = true → Matches (Plus cs) u rest c c
| M_opt_some cs a rest c :
    cset_mem cs a = true → Matches (Opt cs) (String a "") rest c c
| M_opt_none cs rest c : Matches (Opt cs) "" rest c c
| M_lazy cs u rest c :
    Py.all_chars (cset_mem cs) u = true → Matches (StarLazy cs) u rest c c
| M_group n r u rest c c' :
    Matches r u rest c c' → Matches (Group n r) u rest c (<[n:=u]> c')
| M_alt_l r1 r2 u rest c c' :
    Matches r1 u rest c c' → Matches (Alt r1 r2) u rest c c'
| M_alt_r r1 r2 u rest c c' :
    Matches r2 u rest c c' → Matches (Alt r1 r2) u rest c c'
| M_seq r1 r2 u1 u2 rest c c1 c2 :
    Matches r1 u1 (u2 +:+ rest) c c1 → Matches r2 u2 rest c1 c2 →
    Matches (Seq r1 r2) (u1 +:+ u2) rest c c2
| M_eos rest c :
    rest = "" ∨ rest = String "010" "" → Matches Eos "" rest c c.

(** Does group [n] occur in [r]? *)
Fixpoint mentions (r : regex) (n : nat) : bool :=
  match r with
  | Group k r' => bool_decide (k = n) || mentions r' n
  | Alt r1 r2 | Seq r1 r2 => mentions r1 n || mentions r2 n
  | _ => false
  end.

(** The body of group [n] when every match of [r] goes through it. *)
Fixpoint group_body (r : regex) (n : nat) : option regex :=
  match r with
  | Group k r' => if bool_decide (k = n) then Some r' else group_body r' n
  | Seq r1 r2 => if mentions r2 n then group_body r2 n else group_body r1 n
  | _ => None
  end.

(** Can [r] accept the empty text? *)
Fixpoint nullable (r : regex) : bool :=
  match r with
  | Lit l => String.eqb l ""
  | One _ | Plus _ => false
  | Star _ | Opt _ | StarLazy _ | Eos => true
  | Group _ r' => nullable r'
  | Alt r1 r2 => nullable r1 || nullable r2
  | Seq r1 r2 => nullable r1 && nullable r2
  end.

(** [v] occurs in [t]. *)
Definition occurs_in (v t : string) : Prop := ∃ pre post, t = pre +:+ v +:+ post.

(** What every match the functions of [Re] return satisfies: it lies
    in the text and the pattern accepts it. *)
Definition match_of (r : regex) (t : string) (m : rmatch) : Prop :=
  (∃ pre, t = pre +:+ matched m +:+ after m) ∧
  Matches r (matched m) (after m) ∅ (groups m).

(** The digits at the head of a text, the longest run of digits, and
    the texts in which no run of digits is too long for [int]. *)
Fixpoint digit_run (t : string) : nat :=
  match t with
  | String a t' => if Py.is_digit a then S (digit_run t') else O
  | EmptyString => O
  end.
Fixpoint longest_digit_run (t : string) : nat :=
  match t with
  | String _ t' => Nat.max (digit_run t) (longest_digit_run t')
  | EmptyString => O
  end.
Definition bounded (t : string) : Prop :=
  (longest_digit_run t ≤ Py.int_max_str_digits)%nat.
End ReSpec.

(** ** Stations *)


(** The text the MAC pattern captures in a block, if it matches. *)
Definition raw_mac (block : string) : option string :=
  Re.search Pat.mac block ≫= fun m => Re.group m 1.

(** The blocks of a station listing: what follows each "index: N". *)
Definition blocks_of (output : string) : list string :=
  tail (Re.split Pat.index output).

(** ** Defaults *)




(** ** The shape of a snapshot *)

(** The five top-level keys, each with a value of its kind. *)
Definition shaped (data : dict) : Prop :=
  ∃ device_info status clients network radio,
    data = {[ "device_info" := VDict device_info; "status" := VDict status;
              "clients" := VList clients; "network" := VDict network;
              "radio" := VDict radio ]}.


(** A session in which every command gives the absence value. *)
Definition unanswered (σ : session) : Prop :=
  ∀ tr command, (async_execute_command command (with_trace σ tr)).1 = Ok None.

(** ** Sample texts and sessions *)

Module Sample.
Definition nl : string := String "010" "".

Fixpoint ones (n : nat) : string :=
  match n with
  | O => ""
  | S n' => String "1" (ones n')
  end.


(** Two stations, the first with its MAC in lower case. *)
Definition two_stations : string :=
  "index: 1" +:+ nl +:+
  "  MAC: a4:e5:7c:a3:38:8a" +:+ nl +:+
  "  IPv4: 10.0.30.248" +:+ nl +:+
  "  Slot: 1" +:+ nl +:+
  "  SSID: 6fer_IoT" +:+ nl +:+
  "  RSSI: 98" +:+ nl +:+
  "  RSSI dBm: -51" +:+ nl +:+
  "index: 2" +:+ nl +:+
  "  MAC: 0C:8b:95:01:aB:ff" +:+ nl +:+
  "  IPv4: 10.0.30.12" +:+ nl.



(** A memory report whose percentage has 4301 digits. *)
Definition long_memory : string := "memory usage: " +:+ ones 4301 +:+ "%".


(** What [_parse_clients] returns for [two_stations]. *)
Definition first_station : dict :=
  {[ "mac" := VStr "A4:E5:7C:A3:38:8A"; "ip" := VStr "10.0.30.248";
     "ssid" := VStr "6fer_IoT"; "rssi_dbm" := VInt (-51);
     "rssi_percent" := VInt 98; "slot" := VInt 1 ]}.
Definition second_station : dict :=
  {[ "mac" := VStr "0C:8B:95:01:AB:FF"; "ip" := VStr "10.0.30.12" ]}.

(** The outputs of [show version], [show wlan all] and
    [show port status] given in the docstrings of the older copy. *)
Definition version_text : string :=
  "model           : NWA50AX" +:+ nl +:+
  "firmware version: V7.10(ABYW.3)" +:+ nl +:+
  "build date      : 2025-06-29 01:00:28" +:+ nl.
Definition wlan_text : string :=
  "slot: slot1" +:+ nl +:+ " Role: ap" +:+ nl +:+ " Band: 2.4G" +:+ nl +:+
  " SSID_profile_1: Home" +:+ nl +:+ " Activate: yes" +:+ nl.
Definition port_text : string :=
  "Port Status       TxPkts     RxPkts     TxBcast    RxBcast    Colli.  TxB/s      RxB/s      Up Time      PVID       TxBytes              RxBytes" +:+ nl +:+
  "1    1000M/Full   2937780    5799031    3176       139355     0       8616       15312      29:33:11     20         796587774            5569274515" +:+ nl.

(** No SSH library, no connection: every command gives None. *)
Definition dead : session :=
  {| HAS_ASYNCSSH := false; HAS_PARAMIKO := false; conn := false;
     device := fun _ _ => Raise TransportError; trace := [] |}.

(** A connected asyncssh session whose device answers [show mem status]
    and [reboot] and times out on everything else. *)
Definition partial : session :=
  {| HAS_ASYNCSSH := true; HAS_PARAMIKO := false; conn := true;
     device := fun _ command =>
       if String.eqb command "show mem status" then Ok "memory usage: 53%"
       else if String.eqb command "reboot" then Ok ""
       else Raise TransportError;
     trace := [] |}.
End Sample.

(** ** Fields *)

(** A text as [strip] leaves it, on one line. *)
Definition trimmed (s : string) : Prop :=
  Py.strip s = s ∧ Py.contains "010" s = false.




(** A text that does not begin with white space. *)
Definition left_trimmed (t : string) : Prop :=
  match t with String a _ => Py.is_space a = false | EmptyString => True end.


(** ** Texts the patterns read in one way *)

(** [rest] does not begin with a character of the set. *)
Definition stops (cs : Re.cset) (rest : string) : Prop :=
  match rest with
  | String a _ => Re.cset_mem cs a = false
  | EmptyString => True
  end.

(** A decimal number that [int] converts. *)
Definition number (ds : string) : Prop :=
  ds ≠ "" ∧ Py.all_chars Py.is_digit ds = true ∧
  (String.length ds ≤ Py.int_max_str_digits)%nat.

(** A run of white space, possibly empty. *)
Definition blank (ws : string) : Prop := Py.all_chars Py.is_space ws = true.

(** ** The aggregator's commands *)

(** The commands of [async_get_data], in the order of its calls. *)
Definition polling_commands : list string :=
  [ "show version"; "show system uptime"; "show cpu all"; "show mem status";
    "show wireless-hal station info"; "show interface all"; "show wlan all";
    "show port status" ].


(** A step of the aggregator that keeps the shape of [data], sends the
    commands [cmds] in order and leaves the session otherwise alone; it
    stops early only by raising. *)
Definition sends {A} (m : M (session * dict) A) (cmds : list string) : Prop :=
  ∀ σ data, shaped data →
    ∃ sent, sent `prefix_of` cmds ∧
      (m (σ, data)).2.1 = with_trace σ (trace σ ++ (Call <$> sent)) ∧
      shaped (m (σ, data)).2.2 ∧
      (is_Ok (m (σ, data)).1 → sent = cmds).


(** ** The session manager

    [__init__], [async_connect] and [async_disconnect] are those of
    [custom_components/ha_zyxel]; the older copy opens a connection with
    asyncssh only and its [async_disconnect] has no handler. *)

Definition with_conn (σ : session) (c : bool) : session :=
  {| HAS_ASYNCSSH := HAS_ASYNCSSH σ; HAS_PARAMIKO := HAS_PARAMIKO σ;
     conn := c; device := device σ; trace := trace σ |}.

(** [self._conn = ...]: a connection, or None. *)
Definition set_conn (c : bool) : M session () := fun σ => (Ok (), with_conn σ c).

(** [ZyxelSSHAPI(host, username, password, port)] in a process where the
    two imports went as the flags say: the object, or nothing when
    [__init__] raises ImportError. *)
Definition __init__ (has_asyncssh has_paramiko : bool)
    (far_end : list event → string → result string) : option session :=
  if negb has_asyncssh && negb has_paramiko then None
  else Some {| HAS_ASYNCSSH := has_asyncssh; HAS_PARAMIKO := has_paramiko;
               conn := false; device := far_end; trace := [] |}.

(** [_connect_paramiko_sync]: [opened] is what the library's connect
    call gives, a client or an exception. *)
Definition _connect_paramiko_sync (opened : result ()) : M session () := parse opened.

(** [async_connect].  The ImportError of the last branch is raised
    inside the [try] and caught by its handler at once, which returns
    False: the branch is written as its outcome. *)
Definition async_connect (opened : result ()) : M session bool :=
  try_except
    (σ ← get;
     if HAS_ASYNCSSH σ then
       _ ← parse opened; _ ← set_conn true; mret true
     else if HAS_PARAMIKO σ then
       _ ← _connect_paramiko_sync opened; _ ← set_conn true; mret true
     else mret false)
    (fun _ => mret false).

(** [_disconnect_paramiko_sync]: [closed] is what [close()] gives. *)
Definition _disconnect_paramiko_sync (closed : result ()) : M session () :=
  try_except
    (σ ← get; if conn σ then parse closed else mret ())
    (fun _ => mret ()).

(** [async_disconnect]: with asyncssh, [closed] is what [close()] and
    [wait_closed()] give. *)
Definition async_disconnect (closed : result ()) : M session () :=
  try_except
    (σ ← get;
     if conn σ && HAS_ASYNCSSH σ then
       _ ← parse closed; set_conn false
     else if conn σ && HAS_PARAMIKO σ then
       _ ← _disconnect_paramiko_sync closed; set_conn false
     else mret ())
    (fun _ => mret ()).

(** What the device gives for a command after the calls so far. *)
Definition answer (σ : session) (command : string) : option string :=
  match device σ (trace σ ++ [Call command]) command with
  | Ok text => Some text
  | Raise _ => None
  end.

(** ** The switch and the button *)

(** The switch entity holds the API object and its flag [_attr_is_on]. *)
Definition set_is_on (v : bool) : M (session * bool) () := fun '(σ, _) =>
  (Ok (), (σ, v)).

(** [async_turn_on] and [async_turn_off]; [written] is what the host's
    [async_write_ha_state] gives. *)
Definition async_turn_on (written : result ()) : M (session * bool) () :=
  try_except
    (on_session (async_toggle_guest_ssid true) ≫= fun success : bool =>
       if success then _ ← set_is_on true; parse written else mret ())
    (fun _ => mret ()).
Definition async_turn_off (written : result ()) : M (session * bool) () :=
  try_except
    (on_session (async_toggle_guest_ssid false) ≫= fun success : bool =>
       if success then _ ← set_is_on false; parse written else mret ())
    (fun _ => mret ()).

(** [ZyxelRebootButton.async_press] *)
Definition async_press : M session () :=
  try_except
    (async_reboot ≫= fun success : bool =>
       if success then mret () else mret ())
    (fun _ => mret ()).

(** ** The sensors of [sensor.py]

    A sensor reads the snapshot the coordinator holds, the last one
    [async_get_data] returned.  [native_value] is embedded for the sixteen
    sensors, [extra_state_attributes] for the uptime sensor. *)

Module Host.
(** [x.get(key, default)] *)
Definition get (x : value) (key : string) (dflt : value) : result value :=
  match x with
  | VDict d => Ok (default dflt (d !! key))
  | _ => Raise AttributeError
  end.

(** [data.get(key, {})] on the snapshot, a dictionary *)
Definition section (data : dict) (key : string) : value :=
  default (VDict ∅) (data !! key).

(** [len(x)] *)
Definition len (x : value) : result Z :=
  match x with
  | VList l => Ok (Z.of_nat (length l))
  | VStr s => Ok (Z.of_nat (String.length s))
  | VDict d => Ok (Z.of_nat (size d))
  | _ => Raise TypeError
  end.

(** [for c in x]: the items of a list, the characters of a string, the
    keys of a dictionary (strings all, so their order does not show in
    what the sensors compute). *)
Definition iter (x : value) : result (list value) :=
  match x with
  | VList l => Ok l
  | VStr s => Ok ((fun a => VStr (String a "")) <$> list_ascii_of_string s)
  | VDict d => Ok ((fun kv => VStr kv.1) <$> map_to_list d)
  | _ => Raise TypeError
  end.

(** [needle in hay] for two strings *)
Fixpoint find (needle hay : string) : bool :=
  match hay with
  | EmptyString => String.prefix needle hay
  | String _ hay' => String.prefix needle hay || find needle hay'
  end.

(** [needle in x] for a string [needle] *)
Definition str_in (needle : string) (x : value) : result bool :=
  match x with
  | VStr s => Ok (find needle s)
  | VList l =>
      Ok (existsb (fun v => match v with VStr s => String.eqb s needle | _ => false end) l)
  | VDict d => Ok (bool_decide (is_Some (d !! needle)))
  | _ => Raise TypeError
  end.

(** [sum(1 for c in clients if needle in c.get("band", ""))] *)
Definition count_band (needle : string) (clients : value) : result value :=
  cs ← iter clients;
  hits ← mapM (fun c => band ← get c "band" (VStr ""); str_in needle band) cs;
  Ok (VInt (Z.of_nat (length (filter (fun hit => hit = true) hits)))).

(** The operand of [//] and [%] with an [int] on the right. *)
Definition number (x : value) : result Z :=
  match x with
  | VInt z => Ok z
  | VBool b => Ok (if b then 1 else 0)
  | _ => Raise TypeError
  end.

(** [f"{n}"] for an [int] *)
Definition str (n : Z) : string := NilZero.string_of_int (Z.to_int n).
End Host.

Module ZyxelUptimeSensor.
Definition native_value (data : dict) : result value :=
  Host.get (Host.section data "status") "uptime" (VInt 0).

Definition extra_state_attributes (data : dict) : result dict :=
  value ← native_value data;
  uptime ← Host.number (if truthy value then value else VInt 0);
  let days := uptime `div` 86400 in
  let hours := (uptime `mod` 86400) `div` 3600 in
  let minutes := (uptime `mod` 3600) `div` 60 in
  Ok {[ "days" := VInt days; "hours" := VInt hours; "minutes" := VInt minutes;
        "formatted" :=
          VStr (Host.str days +:+ "d " +:+ Host.str hours +:+ "h " +:+
                Host.str minutes +:+ "m") ]}.
End ZyxelUptimeSensor.

Module ZyxelFirmwareSensor.
Definition native_value (data : dict) : result value :=
  Host.get (Host.section data "device_info") "firmware" (VStr "Unknown").
End ZyxelFirmwareSensor.

Module ZyxelCPUSensor.
Definition native_value (data : dict) : result value :=
  cpu_data ← Host.get (Host.section data "status") "cpu" (VDict ∅);
  Host.get cpu_data "current" (VInt 0).
End ZyxelCPUSensor.

Module ZyxelCPU1MinSensor.
Definition native_value (data : dict) : result value :=
  cpu_data ← Host.get (Host.section data "status") "cpu" (VDict ∅);
  Host.get cpu_data "avg_1min" (VInt 0).
End ZyxelCPU1MinSensor.

Module ZyxelCPU5MinSensor.
Definition native_value (data : dict) : result value :=
  cpu_data ← Host.get (Host.section data "status") "cpu" (VDict ∅);
  Host.get cpu_data "avg_5min" (VInt 0).
End ZyxelCPU5MinSensor.

Module ZyxelMemorySensor.
Definition native_value (data : dict) : result value :=
  Host.get (Host.section data "status") "memory" (VInt 0).
End ZyxelMemorySensor.

Module ZyxelClientsSensor.
Definition native_value (data : dict) : result value :=
  VInt <$> Host.len (default (VList []) (data !! "clients")).
End ZyxelClientsSensor.

Module ZyxelClients24GHzSensor.
Definition native_value (data : dict) : result value :=
  Host.count_band "2.4" (default (VList []) (data !! "clients")).
End ZyxelClients24GHzSensor.

Module ZyxelClients5GHzSensor.
Definition native_value (data : dict) : result value :=
  Host.count_band "5" (default (VList []) (data !! "clients")).
End ZyxelClients5GHzSensor.

Module ZyxelPortStatusSensor.
Definition native_value (data : dict) : result value :=
  port ← Host.get (Host.section data "network") "port" (VDict ∅);
  Host.get port "status" (VStr "Unknown").
End ZyxelPortStatusSensor.

Module ZyxelPortTxRateSensor.
Definition native_value (data : dict) : result value :=
  port ← Host.get (Host.section data "network") "port" (VDict ∅);
  Host.get port "tx_rate" (VInt 0).
End ZyxelPortTxRateSensor.

Module ZyxelPortRxRateSensor.
Definition native_value (data : dict) : result value :=
  port ← Host.get (Host.section data "network") "port" (VDict ∅);
  Host.get port "rx_rate" (VInt 0).
End ZyxelPortRxRateSensor.

Module ZyxelPortTxBytesSensor.
Definition native_value (data : dict) : result value :=
  port ← Host.get (Host.section data "network") "port" (VDict ∅);
  Host.get port "tx_bytes" (VInt 0).
End ZyxelPortTxBytesSensor.

Module ZyxelPortRxBytesSensor.
Definition native_value (data : dict) : result value :=
  port ← Host.get (Host.section data "network") "port" (VDict ∅);
  Host.get port "rx_bytes" (VInt 0).
End ZyxelPortRxBytesSensor.

Module ZyxelSlot1StatusSensor.
Definition native_value (data : dict) : result value :=
  active ← Host.get (Host.section data "radio") "slot1_active" VNone;
  Ok (VStr (if truthy active then "Active" else "Inactive")).
End ZyxelSlot1StatusSensor.

Module ZyxelSlot2StatusSensor.
Definition native_value (data : dict) : result value :=
  active ← Host.get (Host.section data "radio") "slot2_active" VNone;
  Ok (VStr (if truthy active then "Active" else "Inactive")).
End ZyxelSlot2StatusSensor.

(** The sixteen sensors of [async_setup_entry], in its order. *)
Definition sensors : list (dict → result value) :=
  [ ZyxelUptimeSensor.native_value; ZyxelFirmwareSensor.native_value;
    ZyxelCPUSensor.native_value; ZyxelCPU1MinSensor.native_value;
    ZyxelCPU5MinSensor.native_value; ZyxelMemorySensor.native_value;
    ZyxelClientsSensor.native_value; ZyxelClients24GHzSensor.native_value;
    ZyxelClients5GHzSensor.native_value;
    ZyxelPortStatusSensor.native_value; ZyxelPortTxRateSensor.native_value;
    ZyxelPortRxRateSensor.native_value; ZyxelPortTxBytesSensor.native_value;
    ZyxelPortRxBytesSensor.native_value;
    ZyxelSlot1StatusSensor.native_value; ZyxelSlot2StatusSensor.native_value ].

(** A snapshot whose entries have the types the sensors compute with:
    the uptime an [int], the CPU record and the port record
    dictionaries, every station a dictionary whose band is a string. *)
Definition station (c : value) : Prop :=
  ∃ d, c = VDict d ∧ ∀ v, d !! "band" = Some v → ∃ s, v = VStr s.

Definition typed (data : dict) : Prop :=
  ∃ device_info status clients network radio,
    data = {[ "device_info" := VDict device_info; "status" := VDict status;
              "clients" := VList clients; "network" := VDict network;
              "radio" := VDict radio ]} ∧
    (∀ v, status !! "uptime" = Some v → ∃ z, v = VInt z) ∧
    (∀ v, status !! "cpu" = Some v → ∃ d, v = VDict d) ∧
    (∀ v, network !! "port" = Some v → ∃ d, v = VDict d) ∧
    Forall station clients.

(** A step of the aggregator that keeps a property of [data]. *)
Definition keeps (P : dict → Prop) {A} (m : M (session * dict) A) : Prop :=
  ∀ σ data, P data → P (m (σ, data)).2.2.

(** A snapshot whose device identity is [info]. *)
Definition identified (info : dict) (data : dict) : Prop :=
  shaped data ∧ data !! "device_info" = Some (VDict info).

(** ** Table rows *)

(** A separator of a table row: white space, at least one character. *)
Definition gap (ws : string) : Prop := ws ≠ "" ∧ blank ws.



(** ** Strings *)

Section strings.
Implicit Types u v t : string.

Lemma app_cons a u v : String a u +:+ v = String a (u +:+ v).
Proof. reflexivity. Qed.
Lemma app_empty_l u : "" +:+ u = u.
Proof. reflexivity. Qed.
Lemma app_empty_r u : u +:+ "" = u.
Proof. induction u as [|a u IH]; [done|]. by rewrite app_cons, IH. Qed.
Lemma app_assoc' u v t : (u +:+ v) +:+ t = u +:+ v +:+ t.
Proof. induction u as [|a u IH]; [done|]. by rewrite !app_cons, IH. Qed.
Lemma length_app u v :
  String.length (u +:+ v) = (String.length u + String.length v)%nat.
Proof. induction u as [|a u IH]; [done|]. rewrite app_cons. simpl. by rewrite IH. Qed.
Lemma all_chars_app p u v :
  Py.all_chars p (u +:+ v) = Py.all_chars p u && Py.all_chars p v.
Proof.
  induction u as [|a u IH]; [done|]. rewrite app_cons. simpl.
  by rewrite IH, andb_assoc.
Qed.
End strings.

(** ** The matcher accepts only what the pattern means *)

Section soundness.
Import Re ReSpec.
Context {R : Type}.
Implicit Types (k : string → string → caps → option R) (x : R).

Lemma lit_sound l t rest : lit l t = Some rest → t = l +:+ rest.
Proof.
  revert t. induction l as [|a l IH]; intros [|b t] H; simplify_eq/=; try done.
  destruct (Ascii.eqb_spec a b) as [->|]; [|done].
  rewrite app_cons. f_equal. by apply IH.
Qed.

Lemma star_greedy_sound p t (k : string → string → option R) x :
  star_greedy p t k = Some x →
  ∃ u rest, t = u +:+ rest ∧ Py.all_chars p u = true ∧ k u rest = Some x.
Proof.
  revert k. induction t as [|a t IH]; intros k H; simpl in H.
  { by exists "", "". }
  destruct (p a) eqn:Hp; [|by exists "", (String a t)].
  destruct (star_greedy p t _) as [y|] eqn:Hrec.
  - simplify_eq. apply IH in Hrec as (u & rest & -> & Hu & Hk).
    exists (String a u), rest. simpl. by rewrite Hp, Hu.
  - by exists "", (String a t).
Qed.

Lemma star_lazy_sound p t (k : string → string → option R) x :
  star_lazy p t k = Some x →
  ∃ u rest, t = u +:+ rest ∧ Py.all_chars p u = true ∧ k u rest = Some x.
Proof.
  revert k. induction t as [|a t IH]; intros k H; simpl in H.
  { destruct (k "" "") eqn:Hk; [|done]. simplify_eq. by exists "", "". }
  destruct (k "" (String a t)) eqn:Hk.
  { simplify_eq. by exists "", (String a t). }
  destruct (p a) eqn:Hp; [|done].
  apply IH in H as (u & rest & -> & Hu & Hk').
  exists (String a u), rest. simpl. by rewrite Hp, Hu.
Qed.

Lemma run_sound r t c k x :
  run r t c k = Some x →
  ∃ u rest c', t = u +:+ rest ∧ Matches r u rest c c' ∧ k u rest c' = Some x.
Proof.
  revert t c k.
  induction r as [l|cs|cs|cs|cs|cs|n r IH|r1 IH1 r2 IH2|r1 IH1 r2 IH2|];
    intros t c k H; simpl in H.
  - destruct (lit l t) as [rest|] eqn:Hl; [|done].
    apply lit_sound in Hl as ->. exists l, rest, c. eauto using Matches.
  - destruct t as [|a t]; [done|]. destruct (cset_mem cs a) eqn:Hm; [|done].
    exists (String a ""), t, c. eauto using Matches.
  - apply star_greedy_sound in H as (u & rest & -> & Hu & Hk).
    exists u, rest, c. eauto using Matches.
  - destruct t as [|a t]; [done|]. destruct (cset_mem cs a) eqn:Hm; [|done].
    apply star_greedy_sound in H as (u & rest & -> & Hu & Hk).
    exists (String a u), rest, c. split_and!; [done| |done].
    apply M_plus; [done|]. simpl. by rewrite Hm, Hu.
  - destruct t as [|a t].
    { exists "", "", c. eauto using Matches. }
    destruct (cset_mem cs a) eqn:Hm.
    + destruct (k (String a "") t c) eqn:Hk.
      * simplify_eq. exists (String a ""), t, c. eauto using Matches.
      * exists "", (String a t), c. eauto using Matches.
    + exists "", (String a t), c. eauto using Matches.
  - apply star_lazy_sound in H as (u & rest & -> & Hu & Hk).
    exists u, rest, c. eauto using Matches.
  - apply IH in H as (u & rest & c' & -> & Hm & Hk).
    exists u, rest, (<[n:=u]> c'). eauto using Matches.
  - destruct (run r1 t c k) eqn:H1.
    + simplify_eq. apply IH1 in H1 as (u & rest & c' & -> & Hm & Hk).
      exists u, rest, c'. eauto using Matches.
    + apply IH2 in H as (u & rest & c' & -> & Hm & Hk).
      exists u, rest, c'. eauto using Matches.
  - apply IH1 in H as (u1 & t1 & c1 & -> & Hm1 & H).
    apply IH2 in H as (u2 & t2 & c2 & -> & Hm2 & Hk).
    exists (u1 +:+ u2), t2, c2. rewrite app_assoc'. eauto using Matches.
  - destruct t as [|a [|b t]].
    + exists "", "", c. eauto using Matches.
    + destruct (Ascii.eqb_spec a "010") as [->|Hne].
      * exists "", (String "010" ""), c. eauto using Matches.
      * exfalso. revert H. clear -Hne.
        destruct a as [[] [] [] [] [] [] [] []]; try done.
    + exfalso. revert H. clear.
      destruct a as [[] [] [] [] [] [] [] []]; done.
Qed.
End soundness.

Section search_soundness.
Import Re ReSpec.
Implicit Types (r : regex) (t : string) (m : rmatch).

Lemma match_here_sound r t m :
  match_here r t = Some m →
  t = matched m +:+ after m ∧ Matches r (matched m) (after m) ∅ (groups m).
Proof.
  unfold match_here. intros H.
  apply run_sound in H as (u & rest & c' & -> & Hm & [= <-]). done.
Qed.

Lemma match_of_cons r a t m : match_of r t m → match_of r (String a t) m.
Proof.
  intros [[pre ->] Hm]. split; [|done]. by exists (String a pre).
Qed.

Lemma search_sound r t m : search r t = Some m → match_of r t m.
Proof.
  induction t as [|a t IH]; simpl; intros H.
  - destruct (match_here r "") as [m'|] eqn:Hh; [|done]. simplify_eq.
    apply match_here_sound in Hh as [? ?]. split; [by exists ""|done].
  - destruct (match_here r (String a t)) as [m'|] eqn:Hh.
    + simplify_eq. apply match_here_sound in Hh as [? ?].
      split; [by exists ""|done].
    + by apply match_of_cons, IH.
Qed.

Lemma scan_sound r t skip gap :
  Forall (fun gm => match_of r t gm.2) (scan r t skip gap).1.
Proof.
  revert skip gap. induction t as [|a t IH]; intros skip gap; simpl.
  - destruct skip; [|by constructor].
    destruct (match_here r "") as [m|] eqn:Hh; [|by constructor].
    apply match_here_sound in Hh as [? ?].
    repeat constructor; [by exists ""|done].
  - destruct skip as [|n].
    + destruct (match_here r (String a t)) as [m|] eqn:Hh.
      * apply match_here_sound in Hh as [? ?].
        assert (match_of r (String a t) m) by (split; [by exists ""|done]).
        destruct (String.length (matched m)) as [|n].
        -- specialize (IH O (String a "")). destruct (scan r t 0 _).
           constructor; [done|].
           eapply Forall_impl; [exact IH|]. intros ?. apply match_of_cons.
        -- specialize (IH n ""). destruct (scan r t n _).
           constructor; [done|].
           eapply Forall_impl; [exact IH|]. intros ?. apply match_of_cons.
      * eapply Forall_impl; [apply IH|]. intros ?. apply match_of_cons.
    + eapply Forall_impl; [apply IH|]. intros ?. apply match_of_cons.
Qed.

Lemma finditer_sound r t : Forall (match_of r t) (finditer r t).
Proof.
  unfold finditer. apply Forall_fmap. apply (scan_sound r t 0 "").
Qed.

(** Groups outside a pattern keep their text. *)
Lemma Matches_frame r u rest c c' n :
  Matches r u rest c c' → mentions r n = false → c' !! n = c !! n.
Proof.
  induction 1; simpl; intros Hn; try done.
  - apply orb_false_iff in Hn as [Hk Hn].
    apply bool_decide_eq_false in Hk. rewrite lookup_insert_ne by done. auto.
  - apply orb_false_iff in Hn as [? ?]. auto.
  - apply orb_false_iff in Hn as [? ?]. auto.
  - apply orb_false_iff in Hn as [? ?]. rewrite IHMatches2 by done. auto.
Qed.

(** A group on the spine of the pattern is set by every match, to a
    piece of the matched text that its body accepts. *)
Lemma Matches_group r u rest c c' n b :
  Matches r u rest c c' → group_body r n = Some b →
  ∃ v pre post cb cb',
    c' !! n = Some v ∧ u = pre +:+ v +:+ post ∧ Matches b v (post +:+ rest) cb cb'.
Proof.
  intros Hm. revert b. induction Hm; simpl; intros b Hb; try done.
  - case_bool_decide as Hk.
    + simplify_eq. exists u, "", "", c, c'.
      rewrite lookup_insert_eq, app_empty_r. done.
    + destruct (IHHm _ Hb) as (v & pre & post & cb & cb' & ? & ? & ?).
      exists v, pre, post, cb, cb'. by rewrite lookup_insert_ne.
  - destruct (mentions r2 n) eqn:Hmen.
    + destruct (IHHm2 _ Hb) as (v & pre & post & cb & cb' & ? & -> & ?).
      exists v, (u1 +:+ pre), post, cb, cb'. by rewrite app_assoc'.
    + destruct (IHHm1 _ Hb) as (v & pre & post & cb & cb' & Hl & -> & Hv).
      exists v, pre, (post +:+ u2), cb, cb'. split_and!.
      * by rewrite (Matches_frame _ _ _ _ _ _ Hm2 Hmen).
      * by rewrite !app_assoc'.
      * by rewrite app_assoc'.
Qed.

Lemma occurs_in_app v pre t post :
  occurs_in v t → occurs_in v (pre +:+ t +:+ post).
Proof.
  intros (p & q & ->). exists (pre +:+ p), (q +:+ post).
  by rewrite !app_assoc'.
Qed.

Lemma match_of_group r t m n b :
  match_of r t m → group_body r n = Some b →
  ∃ v rest cb cb',
    group m n = Some v ∧ occurs_in v t ∧ Matches b v rest cb cb'.
Proof.
  intros [[pre ->] Hm] Hb.
  destruct (Matches_group _ _ _ _ _ _ _ Hm Hb)
    as (v & p & q & cb & cb' & Hl & Hu & Hv).
  exists v, (q +:+ after m), cb, cb'. split_and!; [done| |done].
  rewrite Hu. apply occurs_in_app. by exists p, q.
Qed.
Lemma app_eq_empty u v : u +:+ v = "" → u = "" ∧ v = "".
Proof. destruct u; [done|]. by rewrite app_cons. Qed.

(** A pattern with a mandatory character accepts no empty text. *)
Lemma Matches_nonempty r u rest c c' :
  Matches r u rest c c' → nullable r = false → u ≠ "".
Proof.
  induction 1; simpl; intros Hn; try done.
  - intros ->. by rewrite String.eqb_refl in Hn.
  - auto.
  - apply orb_false_iff in Hn as [? ?]. auto.
  - apply orb_false_iff in Hn as [? ?]. auto.
  - intros [? ?]%app_eq_empty. apply andb_false_iff in Hn as [?|?]; naive_solver.
Qed.

(** The patterns given to [findall] and [split] have a mandatory
    literal, so [scan] never meets an empty match. *)
Lemma scanned_patterns_consume :
  nullable Pat.index = false ∧ nullable Pat.core_pattern = false ∧
  nullable Pat.core_1min_pattern = false ∧ nullable Pat.core_5min_pattern = false ∧
  nullable Pat.interface_line = false ∧ nullable Pat.ssid_profile = false.
Proof. by split_and!. Qed.

Lemma finditer_nonempty r t :
  nullable r = false → Forall (fun m => matched m ≠ "") (finditer r t).
Proof.
  intros Hn. eapply Forall_impl; [apply finditer_sound|].
  intros m [_ Hm]. by eapply Matches_nonempty.
Qed.
End search_soundness.

Section digits.
Import Re ReSpec.
Implicit Types u v t : string.

Lemma digit_run_all v post :
  Py.all_chars Py.is_digit v = true → (String.length v ≤ digit_run (v +:+ post))%nat.
Proof.
  induction v as [|a v IH]; simpl; [lia|]. intros [Ha Hv]%andb_true_iff.
  rewrite Ha. specialize (IH Hv). lia.
Qed.


Lemma digit_run_longest t : (digit_run t ≤ longest_digit_run t)%nat.
Proof. destruct t; simpl; lia. Qed.

Lemma longest_app_l pre t :
  (longest_digit_run t ≤ longest_digit_run (pre +:+ t))%nat.
Proof.
  induction pre as [|a pre IH]; [done|]. rewrite app_cons.
  change (longest_digit_run (String a (pre +:+ t)))
    with (Nat.max (digit_run (String a (pre +:+ t))) (longest_digit_run (pre +:+ t))).
  lia.
Qed.



Lemma digits_occur v t :
  occurs_in v t → Py.all_chars Py.is_digit v = true →
  (String.length v ≤ longest_digit_run t)%nat.
Proof.
  intros (pre & post & ->) Hv.
  etrans; [apply (digit_run_all v post Hv)|].
  etrans; [apply digit_run_longest|apply longest_app_l].
Qed.

Lemma all_digit v :
  Py.all_chars (cset_mem digit) v = Py.all_chars Py.is_digit v.
Proof.
  induction v as [|a v IH]; [done|]. simpl. by rewrite IH, orb_false_r.
Qed.

Lemma int_digits_ok v :
  v ≠ "" → Py.all_chars Py.is_digit v = true →
  (String.length v ≤ Py.int_max_str_digits)%nat →
  Py.int_digits v = Ok (Py.digits_val 0 v).
Proof.
  intros Hne Hv Hlen. unfold Py.int_digits. rewrite Hv.
  destruct (String.eqb_spec v ""); [done|]. simpl.
  by rewrite (proj2 (Nat.leb_le _ _) Hlen).
Qed.

Lemma digit_not_minus a : Py.is_digit a = true → Ascii.eqb a "-" = false.
Proof. destruct (Ascii.eqb_spec a "-") as [->|]; [by vm_compute|done]. Qed.

Lemma int_unsigned_ok v :
  v ≠ "" → Py.all_chars Py.is_digit v = true →
  (String.length v ≤ Py.int_max_str_digits)%nat →
  Py.int (Some v) = Ok (Py.digits_val 0 v).
Proof.
  intros Hne Hv Hlen. destruct v as [|a v]; [done|]. unfold Py.int.
  pose proof Hv as [Ha _]%andb_true_iff. rewrite (digit_not_minus _ Ha).
  by apply int_digits_ok.
Qed.

(** [int] accepts every group [(\d+)] of a match in a text without an
    over-long run of digits. *)
Lemma group_digits r t m n :
  match_of r t m → group_body r n = Some (Plus digit) →
  (longest_digit_run t ≤ Py.int_max_str_digits)%nat →
  ∃ v, group m n = Some v ∧ v ≠ "" ∧ Py.all_chars Py.is_digit v = true ∧
       Py.int (group m n) = Ok (Py.digits_val 0 v).
Proof.
  intros Hm Hb Hrun.
  destruct (match_of_group _ _ _ _ _ Hm Hb) as (v & rest & cb & cb' & Hg & Hocc & Hv).
  inversion Hv as [| | |? ? ? ? Hne Hall| | | | | | | |]; subst.
  rewrite all_digit in Hall. exists v. split_and!; try done.
  rewrite Hg. apply int_unsigned_ok; try done.
  etrans; [by apply digits_occur|done].
Qed.

(** The same for a group [(-?\d+)]. *)
Lemma group_signed r t m n :
  match_of r t m →
  group_body r n = Some (Seq (Opt (In [Ch "-"%char])) (Plus digit)) →
  (longest_digit_run t ≤ Py.int_max_str_digits)%nat →
  ∃ z, Py.int (group m n) = Ok z.
Proof.
  intros Hm Hb Hrun.
  destruct (match_of_group _ _ _ _ _ Hm Hb) as (v & rest & cb & cb' & Hg & Hocc & Hv).
  rewrite Hg.
  inversion Hv as [| | | | | | | | | |? ? u1 u2 ? ? ? ? H1 H2|]; subst.
  inversion H2 as [| | |? ? ? ? Hne Hall| | | | | | | |]; subst.
  rewrite all_digit in Hall.
  assert (String.length u2 ≤ Py.int_max_str_digits)%nat as Hlen.
  { etrans; [|done]. apply digits_occur; [|done].
    destruct Hocc as (p & q & ->). exists (p +:+ u1), q.
    by rewrite !app_assoc'. }
  inversion H1 as [| | | |? a ? ? Ha| | | | | | |]; subst.
  - simpl in Ha. rewrite orb_false_r in Ha.
    apply Ascii.eqb_eq in Ha as ->. rewrite app_cons, app_empty_l.
    unfold Py.int. simpl. rewrite (int_digits_ok u2) by done. by eexists.
  - rewrite app_empty_l. rewrite int_unsigned_ok by done. by eexists.
Qed.

Lemma group_present r t m n b :
  match_of r t m → group_body r n = Some b → ∃ v, group m n = Some v.
Proof.
  intros Hm Hb.
  destruct (match_of_group _ _ _ _ _ Hm Hb) as (v & ? & ? & ? & Hg & _).
  by exists v.
Qed.
End digits.

Section pieces.
Import Re ReSpec.






End pieces.

(** ** Results *)

Section results.
Lemma bind_Ok {A B} (m : result A) (f : A → result B) b :
  m ≫= f = Ok b → ∃ a, m = Ok a ∧ f a = Ok b.
Proof. destruct m as [a|e]; [|done]. intros H. by exists a. Qed.

Lemma bind_is_Ok {A B} (m : result A) (f : A → result B) :
  is_Ok m → (∀ a, m = Ok a → is_Ok (f a)) → is_Ok (m ≫= f).
Proof. intros [a ->] Hf. by apply Hf. Qed.

Lemma fmap_is_Ok {A B} (m : result A) (g : A → B) : is_Ok m → is_Ok (g <$> m).
Proof. intros [a ->]. by eexists. Qed.

Context {A B : Type}.

Lemma mapM_is_Ok (g : A → result B) l :
  Forall (fun x => is_Ok (g x)) l → is_Ok (mapM g l).
Proof.
  induction 1 as [|x l [y Hy] _ [ys IH]]; simpl; [by eexists|].
  rewrite Hy. simpl. rewrite IH. by eexists.
Qed.

Lemma mapM_Ok (g : A → result B) l ys :
  mapM g l = Ok ys → Forall2 (fun x y => g x = Ok y) l ys.
Proof.
  revert ys. induction l as [|x l IH]; simpl; intros ys H.
  - injection H as <-. constructor.
  - apply bind_Ok in H as (y & Hy & H). apply bind_Ok in H as (ys' & Hys & H).
    injection H as <-. constructor; auto.
Qed.
End results.

Section set_if.
Implicit Types (d : dict) (key : string).

Lemma set_if_is_Ok m key f d :
  (∀ mm, m = Some mm → is_Ok (f mm)) → is_Ok (set_if m key f d).
Proof.
  destruct m as [mm|]; simpl; [|by eexists].
  intros H. destruct (H mm eq_refl) as [v ->]. by eexists.
Qed.

Lemma set_if_other m key f d d' k :
  set_if m key f d = Ok d' → key ≠ k → d' !! k = d !! k.
Proof.
  destruct m as [mm|]; simpl; intros H Hk; [|by simplify_eq].
  apply bind_Ok in H as (v & _ & [= <-]). by rewrite lookup_insert_ne.
Qed.


Lemma set_if_Some mm key f d d' :
  set_if (Some mm) key f d = Ok d' → ∃ v, f mm = Ok v ∧ d' = <[key:=v]> d.
Proof. simpl. intros H. apply bind_Ok in H as (v & ? & [= <-]). eauto. Qed.
End set_if.

(** ** The groups the parsers read are set, and are numbers where [int]
       is applied *)

Section fields.
Import Re ReSpec.
Implicit Types (r : regex) (t : string) (m : rmatch).

Lemma stripped_is_Ok r t m n b :
  search r t = Some m → group_body r n = Some b → is_Ok (stripped n m).
Proof.
  intros Hs%search_sound Hb.
  destruct (group_present _ _ _ _ _ Hs Hb) as [v Hv].
  unfold stripped. rewrite Hv. by eexists.
Qed.

Lemma is_yes_is_Ok r t m n b :
  search r t = Some m → group_body r n = Some b → is_Ok (is_yes n m).
Proof.
  intros Hs%search_sound Hb.
  destruct (group_present _ _ _ _ _ Hs Hb) as [v Hv].
  unfold is_yes. rewrite Hv. by eexists.
Qed.

Lemma upper_is_Ok r t m n b :
  search r t = Some m → group_body r n = Some b →
  is_Ok (VStr <$> Py.meth Py.upper (group m n)).
Proof.
  intros Hs%search_sound Hb.
  destruct (group_present _ _ _ _ _ Hs Hb) as [v Hv].
  rewrite Hv. by eexists.
Qed.

Lemma ssids_is_Ok r t m n b :
  search r t = Some m → group_body r n = Some b → is_Ok (ssids_of (group m n)).
Proof.
  intros Hs%search_sound Hb.
  destruct (group_present _ _ _ _ _ Hs Hb) as [v Hv].
  rewrite Hv. by eexists.
Qed.

Lemma int_is_Ok r t m n :
  search r t = Some m → group_body r n = Some (Plus digit) → bounded t →
  is_Ok (Py.int (group m n)).
Proof.
  intros Hs%search_sound Hb Ht.
  destruct (group_digits _ _ _ _ Hs Hb Ht) as (v & _ & _ & _ & ->). by eexists.
Qed.

Lemma as_int_is_Ok r t m n :
  search r t = Some m → group_body r n = Some (Plus digit) → bounded t →
  is_Ok (as_int n m).
Proof. intros. apply fmap_is_Ok. by eapply int_is_Ok. Qed.

Lemma as_int_signed_is_Ok r t m n :
  search r t = Some m →
  group_body r n = Some (Seq (Opt (In [Ch "-"%char])) (Plus digit)) → bounded t →
  is_Ok (as_int n m).
Proof.
  intros Hs%search_sound Hb Ht. apply fmap_is_Ok.
  destruct (group_signed _ _ _ _ Hs Hb Ht) as [z ->]. by eexists.
Qed.

Lemma as_is_is_Ok n m : is_Ok (as_is n m).
Proof. by eexists. Qed.

(** The second component of every pair [findall2] returns for a pattern
    whose second group is [(\d+)]. *)
Lemma findall2_digits r t :
  group_body r 2 = Some (Plus digit) → bounded t →
  Forall (fun c => Py.int (Some c.2) = Ok (Py.digits_val 0 c.2)) (findall2 r t).
Proof.
  intros Hb Ht. unfold findall2. apply Forall_fmap.
  eapply Forall_impl; [apply finditer_sound|]. intros m Hm. simpl.
  destruct (group_digits _ _ _ _ Hm Hb Ht) as (v & Hg & _ & _ & Hi).
  unfold group_text. by rewrite Hg in *.
Qed.

Lemma average_is_Ok r t :
  group_body r 2 = Some (Plus digit) → bounded t →
  is_Ok (average (findall2 r t)).
Proof.
  intros Hb Ht. unfold average. apply bind_is_Ok; [|by eexists].
  apply mapM_is_Ok. eapply Forall_impl; [by apply findall2_digits|].
  intros c ->. by eexists.
Qed.
End fields.

(** ** Every parser returns on a text without an over-long number *)

Section totality.
Import Re ReSpec.

Ltac field :=
  first
    [ by eexists
    | apply as_is_is_Ok
    | eapply stripped_is_Ok; [eassumption|reflexivity]
    | eapply is_yes_is_Ok; [eassumption|reflexivity]
    | eapply upper_is_Ok; [eassumption|reflexivity]
    | eapply ssids_is_Ok; [eassumption|reflexivity]
    | eapply as_int_is_Ok; [eassumption|reflexivity|assumption]
    | eapply as_int_signed_is_Ok; [eassumption|reflexivity|assumption]
    | eapply int_is_Ok; [eassumption|reflexivity|assumption]
    | eapply average_is_Ok; [reflexivity|assumption] ].
Ltac step :=
  apply bind_is_Ok; [first [apply set_if_is_Ok; intros ? ?; field | field] | intros ? _].

Lemma parse_version_total t : is_Ok (_parse_version t).
Proof. unfold _parse_version. do 3 step. field. Qed.








End totality.

(** ** The command runner and the shape of the snapshot *)

Section runner.
Implicit Types (σ : session) (command : string).

(** A command call never raises and leaves one [Call] in the trace. *)
Lemma execute_spec command σ :
  ∃ o, async_execute_command command σ =
         (Ok o, with_trace σ (trace σ ++ [Call command])).
Proof.
  destruct σ as [ha hp cn dev tr].
  unfold async_execute_command, _execute_command_sync, try_except, transport,
    log, get, mbind, M_bind, mret, M_ret, with_trace. simpl.
  destruct (ha && cn); [|destruct hp; [|by eexists]].
  all: match goal with
       | |- context [match ?f ?h ?c with Ok _ => _ | Raise _ => _ end] =>
           destruct (f h c)
       end.
  all: by eexists.
Qed.

Lemma execute_unanswered command σ tr :
  unanswered σ →
  async_execute_command command (with_trace σ tr) =
    (Ok None, with_trace σ (tr ++ [Call command])).
Proof.
  intros H. specialize (H tr command).
  destruct (execute_spec command (with_trace σ tr)) as [o Ho].
  rewrite Ho in H |- *. simpl in H. by simplify_eq.
Qed.

Lemma send_all_spec commands σ :
  send_all commands σ =
    (Ok (), with_trace σ (trace σ ++ (commands ≫= fun c => [Call c; Sleep 500]))).
Proof.
  revert σ. induction commands as [|c cs IH]; intros σ; simpl.
  - destruct σ. unfold mret, M_ret, with_trace. simpl. by rewrite app_nil_r.
  - unfold mbind at 1, M_bind at 1.
    destruct (execute_spec c σ) as [o ->].
    unfold mbind at 1, M_bind at 1. unfold asyncio_sleep, log.
    rewrite IH. unfold with_trace. simpl. f_equal. f_equal.
    by rewrite <- !app_assoc.
Qed.
End runner.

Section shape.
Lemma shaped_empty : shaped empty_snapshot.
Proof. by exists ∅, ∅, [], ∅, ∅. Qed.








End shape.

(** ** The claims *)

Section uptime.
(** C1, as the code has it.  [_parse_uptime] gives 106480 seconds for
    "1 days 05:34:40" (one day is 86400 seconds, and 86400 + 20080 =
    106480), 20080 seconds for "05:34:40", and 0 for every text in which
    neither the days format nor the HH:MM:SS format is found. *)
Theorem parse_uptime_values :
  _parse_uptime "1 days 05:34:40" = Ok 106480 ∧
  _parse_uptime "05:34:40" = Ok 20080 ∧
  ∀ output,
    Re.search Pat.uptime_days output = None →
    Re.search Pat.uptime_hms output = None →
    _parse_uptime output = Ok 0.
Proof.
  split_and!; [by vm_compute..|].
  intros output Hd Hh. unfold _parse_uptime. by rewrite Hd, Hh.
Qed.

Lemma parse_uptime_values_witness : _parse_uptime "unrecognized text" = Ok 0.
Proof. apply (proj2 (proj2 parse_uptime_values)); vm_compute; reflexivity. Defined.

(** C1 as the specification words it fails: the value for
    "1 days 05:34:40" is not 105280. *)
Lemma parse_uptime_not_105280 : _parse_uptime "1 days 05:34:40" ≠ Ok 105280.
Proof. by vm_compute. Qed.
End uptime.

Section empty_input.
(** C6.  On the empty text each parser returns its defaults: "Unknown"
    strings, zero counters, empty lists, False flags. *)
Theorem parsers_on_empty_text :
  _parse_version "" =
    Ok {[ "model" := VStr "Unknown"; "firmware" := VStr "Unknown";
          "build_date" := VStr "Unknown" ]} ∧
  _parse_uptime "" = Ok 0 ∧
  _parse_cpu "" =
    Ok {[ "current" := VInt 0; "avg_1min" := VInt 0; "avg_5min" := VInt 0;
          "cores" := VList [] ]} ∧
  _parse_memory "" = Ok 0 ∧
  _parse_clients "" = Ok [] ∧
  _parse_interfaces "" =
    Ok {[ "ip_address" := VStr "Unknown"; "netmask" := VStr "Unknown";
          "interfaces" := VList [] ]} ∧
  _parse_wlan "" =
    Ok {[ "slot1_active" := VBool false; "slot1_band" := VStr "Unknown";
          "slot1_ssids" := VList [];
          "slot2_active" := VBool false; "slot2_band" := VStr "Unknown";
          "slot2_ssids" := VList [] ]} ∧
  _parse_port_status "" =
    Ok {[ "status" := VStr "Unknown"; "speed" := VStr "Unknown";
          "tx_bytes" := VInt 0; "rx_bytes" := VInt 0;
          "tx_rate" := VInt 0; "rx_rate" := VInt 0; "uptime" := VStr "Unknown" ]}.
Proof. split_and!; vm_compute; reflexivity. Qed.
End empty_input.

Section aggregator.

End aggregator.

Section actions.
(** C9.  [async_reboot] never raises; it calls the command runner once,
    with "reboot", and returns True exactly when that call gave a
    response, False when it gave the absence value. *)
Theorem async_reboot_result σ :
  (async_reboot σ).1 =
    Ok (match (async_execute_command "reboot" σ).1 with
        | Ok (Some _) => true
        | _ => false
        end) ∧
  trace (async_reboot σ).2 = trace σ ++ [Call "reboot"].
Proof.
  unfold async_reboot, try_except, mbind, M_bind.
  destruct (execute_spec "reboot" σ) as [[text|] ->]; done.
Qed.

(** C8.  For either value of the flag, [async_toggle_guest_ssid] calls
    the command runner with the same five commands in the same order,
    pauses half a second after each, and returns True, whatever the
    calls gave: a call never raises, and its result is not looked at. *)
Theorem async_toggle_guest_ssid_result enable σ :
  async_toggle_guest_ssid enable σ =
    (Ok true,
     with_trace σ
       (trace σ ++
        [Call "configure terminal"; Sleep 500;
         Call "wlan-ssid-profile Guest"; Sleep 500;
         Call (if enable then "no ssid-schedule" else "ssid-schedule"); Sleep 500;
         Call "exit"; Sleep 500;
         Call "write"; Sleep 500])).
Proof.
  unfold async_toggle_guest_ssid, try_except, mbind, M_bind.
  rewrite send_all_spec. by destruct enable.
Qed.
End actions.

Section interfaces.
Import Re ReSpec.


End interfaces.

Section stations.
Import Re ReSpec.







Lemma upper_empty u : Py.upper u = "" → u = "".
Proof. by destruct u. Qed.

(** The MAC pattern captures a non-empty text of hexadecimal digits
    and colons. *)
Lemma raw_mac_spec block :
  match raw_mac block with
  | Some raw =>
      is_Some (search Pat.mac block) ∧ raw ≠ "" ∧
      Py.all_chars (cset_mem (In [Digit; Rng "a" "f"; Rng "A" "F"; Ch ":"])) raw = true
  | None => search Pat.mac block = None
  end.
Proof.
  unfold raw_mac. destruct (search Pat.mac block) as [m|] eqn:Hs; simpl; [|done].
  destruct (match_of_group _ _ _ 1 _ (search_sound _ _ _ Hs) eq_refl)
    as (v & ? & ? & ? & -> & _ & Hv).
  inversion Hv; subst. eauto.
Qed.

(** The ["mac"] entry of the record of a block. *)
Lemma parse_client_mac block client :
  parse_client block = Ok client →
  client !! "mac" = (fun raw => VStr (Py.upper raw)) <$> raw_mac block.
Proof.
  unfold parse_client. intros H.
  apply bind_Ok in H as (c1 & H1 & H). apply bind_Ok in H as (c2 & H2 & H).
  apply bind_Ok in H as (c3 & H3 & H). apply bind_Ok in H as (c4 & H4 & H).
  apply bind_Ok in H as (c5 & H5 & H). apply bind_Ok in H as (c6 & H6 & H).
  apply bind_Ok in H as (c7 & H7 & H). apply bind_Ok in H as (c8 & H8 & H).
  apply bind_Ok in H as (c9 & H9 & H). apply bind_Ok in H as (c10 & H10 & H).
  apply bind_Ok in H as (c11 & H11 & H). apply bind_Ok in H as (c12 & H12 & H).
  injection H as <-.
  rewrite (set_if_other _ _ _ _ _ "mac" H12) by done.
  rewrite (set_if_other _ _ _ _ _ "mac" H11) by done.
  rewrite (set_if_other _ _ _ _ _ "mac" H10) by done.
  rewrite (set_if_other _ _ _ _ _ "mac" H9) by done.
  rewrite (set_if_other _ _ _ _ _ "mac" H8) by done.
  rewrite (set_if_other _ _ _ _ _ "mac" H7) by done.
  rewrite (set_if_other _ _ _ _ _ "mac" H6) by done.
  rewrite (set_if_other _ _ _ _ _ "mac" H5) by done.
  rewrite (set_if_other _ _ _ _ _ "mac" H4) by done.
  assert (c3 !! "mac" = c2 !! "mac") as ->.
  { destruct (search Pat.display_ssid block).
    - apply bind_Ok in H3 as (v & _ & [= <-]). by rewrite lookup_insert_ne.
    - destruct (search Pat.ssid block); [|by simplify_eq].
      apply bind_Ok in H3 as (v & _ & [= <-]). by rewrite lookup_insert_ne. }
  rewrite (set_if_other _ _ _ _ _ "mac" H2) by done.
  unfold raw_mac. destruct (search Pat.mac block) as [m|] eqn:Hs; simpl.
  - apply set_if_Some in H1 as (v & Hv & ->). rewrite lookup_insert_eq.
    destruct (group m 1); simpl in *; by simplify_eq.
  - injection H1 as <-. apply lookup_empty.
Qed.

Lemma has_mac_spec block client :
  parse_client block = Ok client → has_mac client = bool_decide (is_Some (raw_mac block)).
Proof.
  intros H%parse_client_mac. unfold has_mac. rewrite H.
  pose proof (raw_mac_spec block) as Hraw.
  destruct (raw_mac block) as [raw|].
  - rewrite bool_decide_eq_true_2 by eauto. simpl.
    destruct Hraw as (_ & Hne & _).
    by destruct (String.eqb_spec (Py.upper raw) "") as [He%upper_empty|].
  - rewrite bool_decide_eq_false_2 by (by intros [? ?]). done.
Qed.

(** The records kept are those of the blocks in which a MAC is found,
    in order. *)
Lemma parse_clients_spec output clients :
  _parse_clients output = Ok clients →
  Forall2 (fun block client => parse_client block = Ok client)
          (filter (fun b => is_Some (raw_mac b)) (blocks_of output)) clients.
Proof.
  unfold _parse_clients, blocks_of. intros H.
  apply bind_Ok in H as (records & Hm%mapM_Ok & [= <-]).
  induction Hm as [|b c bs cs Hbc _ IH]; [constructor|].
  rewrite !filter_cons. rewrite (has_mac_spec _ _ Hbc).
  destruct (decide (is_Some (raw_mac b))) as [Hb|Hb].
  - rewrite bool_decide_eq_true_2 by done.
    destruct (decide (true = true)); [|done]. by constructor.
  - rewrite bool_decide_eq_false_2 by done.
    destruct (decide (false = true)); [done|]. done.
Qed.
End stations.

Section station_claims.
Import Re ReSpec.





End station_claims.

Section station_examples.
Import Re ReSpec.


End station_examples.

Section cpu.
Import Re ReSpec.





End cpu.

Section defaults.
Import Re ReSpec.

Ltac binds H :=
  repeat (let d := fresh "d" in let Hd := fresh "Hd" in
          apply bind_Ok in H as (d & Hd & H));
  injection H as <-.









End defaults.


(** ** The embedding on the outputs the source documents *)

Section documented_outputs.
Example parse_version_documented :
  _parse_version Sample.version_text =
    Ok {[ "model" := VStr "NWA50AX"; "firmware" := VStr "V7.10(ABYW.3)";
          "build_date" := VStr "2025-06-29 01:00:28" ]}.
Proof. vm_compute. reflexivity. Qed.

Example parse_memory_documented :
  _parse_memory "memory usage: 53%" = Ok 53 ∧ _parse_memory "no such label" = Ok 0.
Proof. split; vm_compute; reflexivity. Qed.

(** The lazy [.*?] after "Activate: yes" finds no later "Band: ", so the
    first pattern does not match and band and flag keep their defaults;
    the block pattern does match. *)
Example parse_wlan_documented :
  _parse_wlan Sample.wlan_text =
    Ok {[ "slot1_active" := VBool false; "slot1_band" := VStr "Unknown";
          "slot1_ssids" := VList [VStr "Home"];
          "slot2_active" := VBool false; "slot2_band" := VStr "Unknown";
          "slot2_ssids" := VList [] ]}.
Proof. vm_compute. reflexivity. Qed.

Example parse_port_status_documented :
  _parse_port_status Sample.port_text =
    Ok {[ "status" := VStr "1000M/Full"; "speed" := VStr "1000M";
          "tx_bytes" := VInt 796587774; "rx_bytes" := VInt 5569274515;
          "tx_rate" := VInt 8616; "rx_rate" := VInt 15312;
          "uptime" := VStr "29:33:11" ]}.
Proof. vm_compute. reflexivity. Qed.

Example parse_clients_documented :
  _parse_clients Sample.two_stations = Ok [Sample.first_station; Sample.second_station].
Proof. vm_compute. reflexivity. Qed.

(** An echo, even an empty one, counts as success for [async_reboot];
    a session without a transport gives False. *)
Example async_reboot_partial :
  (async_reboot Sample.partial).1 = Ok true ∧ (async_reboot Sample.dead).1 = Ok false.
Proof. split; reflexivity. Qed.

(** One command answered out of eight: only its section is filled. *)
Example async_get_data_partial :
  (async_get_data Sample.partial).1 =
    Ok (<["status" := VDict {[ "memory" := VInt 53 ]}]> empty_snapshot).
Proof. vm_compute. reflexivity. Qed.

(** The guest toggle reports success on a session without a transport. *)
Example async_toggle_guest_ssid_dead :
  (async_toggle_guest_ssid true Sample.dead).1 = Ok true.
Proof. reflexivity. Qed.
End documented_outputs.

(** ** The keys of the records *)

Section key_sets.
Import Re ReSpec.

Lemma set_if_dom m key f (d d' : dict) :
  set_if m key f d = Ok d' → key ∈ dom d → dom d' = dom d.
Proof.
  destruct m as [mm|]; simpl; intros H Hk; [|by simplify_eq].
  apply bind_Ok in H as (v & _ & [= <-]). rewrite dom_insert_L. set_solver.
Qed.


Ltac binds H :=
  repeat match type of H with
    | mbind _ _ = Ok _ =>
        let d := fresh "d" in let Hd := fresh "Hd" in
        apply bind_Ok in H as (d & Hd & H)
    end;
  injection H as <-.

Ltac in_dom :=
  repeat match goal with E : dom _ = _ |- _ => rewrite E end;
  apply elem_of_dom; eexists; reflexivity.
Ltac dom_step H :=
  match type of H with
  | set_if _ _ _ ?d = Ok ?d' =>
      let E := fresh "E" in
      assert (dom d' = dom d) as E by (apply (set_if_dom _ _ _ _ _ H); in_dom)
  end.

Lemma parse_version_keys t info :
  _parse_version t = Ok info → dom info = {[ "model"; "firmware"; "build_date" ]}.
Proof.
  unfold _parse_version. intros H. binds H.
  dom_step Hd. dom_step Hd0. dom_step Hd1. rewrite E1, E0, E. reflexivity.
Qed.





End key_sets.

(** ** Numbers read from the text *)

Section numbers.
Import Re ReSpec.








End numbers.

(** ** The averages of [_parse_cpu] *)

Section cpu_bounds.
Import Re ReSpec.




End cpu_bounds.

(** ** Stripped fields *)

Section trimming.
Import Re ReSpec.

Lemma rstrip_idem t : Py.rstrip (Py.rstrip t) = Py.rstrip t.
Proof.
  induction t as [|a t IH]; [done|]. simpl.
  destruct (Py.rstrip t) as [|b r] eqn:Hr.
  - destruct (Py.is_space a) eqn:Ha; [done|]. simpl. by rewrite Ha.
  - simpl. simpl in IH. by rewrite IH.
Qed.

Lemma lstrip_left_trimmed t : left_trimmed (Py.lstrip t).
Proof.
  induction t as [|a t IH]; [done|]. simpl.
  by destruct (Py.is_space a) eqn:Ha.
Qed.

Lemma lstrip_id t : left_trimmed t → Py.lstrip t = t.
Proof. destruct t as [|a t]; [done|]. simpl. by intros ->. Qed.

Lemma rstrip_left_trimmed t : left_trimmed t → left_trimmed (Py.rstrip t).
Proof.
  destruct t as [|a t]; [done|]. simpl. intros Ha.
  destruct (Py.rstrip t); [by rewrite Ha|done].
Qed.

Lemma strip_idem t : Py.strip (Py.strip t) = Py.strip t.
Proof.
  unfold Py.strip.
  rewrite (lstrip_id (Py.rstrip (Py.lstrip t)))
    by apply rstrip_left_trimmed, lstrip_left_trimmed.
  apply rstrip_idem.
Qed.

Lemma contains_lstrip c t : Py.contains c t = false → Py.contains c (Py.lstrip t) = false.
Proof.
  induction t as [|a t IH]; [done|]. simpl. intros [? ?]%orb_false_iff.
  destruct (Py.is_space a); [auto|]. simpl. by apply orb_false_iff.
Qed.

Lemma contains_rstrip c t : Py.contains c t = false → Py.contains c (Py.rstrip t) = false.
Proof.
  induction t as [|a t IH]; [done|]. simpl. intros [Ha Ht]%orb_false_iff.
  specialize (IH Ht). destruct (Py.rstrip t) as [|b r].
  - destruct (Py.is_space a); [done|]. simpl. by rewrite Ha.
  - simpl in *. by rewrite Ha.
Qed.

Lemma dot_no_newline v :
  Py.all_chars (cset_mem Dot) v = true → Py.contains "010" v = false.
Proof.
  induction v as [|a v IH]; [done|]. simpl. intros [Ha Hv]%andb_true_iff.
  apply negb_true_iff in Ha. rewrite Ha. auto.
Qed.

Lemma strip_trimmed v :
  Py.all_chars (cset_mem Dot) v = true → trimmed (Py.strip v).
Proof.
  intros Hv. split; [apply strip_idem|].
  by apply contains_rstrip, contains_lstrip, dot_no_newline.
Qed.

(** A field set from [m.group(i).strip()] where the group is [(.+)]. *)
Lemma set_if_stripped r t key (d d' : dict) :
  set_if (search r t) key (stripped 1) d = Ok d' →
  group_body r 1 = Some (Plus Dot) →
  (∃ s, d !! key = Some (VStr s) ∧ trimmed s) →
  ∃ s, d' !! key = Some (VStr s) ∧ trimmed s.
Proof.
  intros H Hb Hd. destruct (search r t) as [m|] eqn:Hs; [|by injection H as <-].
  apply set_if_Some in H as (v & Hv & ->).
  destruct (match_of_group _ _ _ _ _ (search_sound _ _ _ Hs) Hb)
    as (g & ? & ? & ? & Hg & _ & HM).
  unfold stripped in Hv. rewrite Hg in Hv. injection Hv as <-.
  inversion HM; subst. exists (Py.strip g). rewrite lookup_insert_eq.
  split; [done|]. by apply strip_trimmed.
Qed.

Lemma trimmed_unknown : trimmed "Unknown".
Proof. by split. Qed.

(** X2.  [_parse_version] returns on every text, and its three fields
    are strings without a blank at either end and without a line break:
    the default Unknown or a stripped capture of one line. *)
Theorem parse_version_trimmed output :
  ∃ info model firmware build_date,
    _parse_version output = Ok info ∧
    info = {[ "model" := VStr model; "firmware" := VStr firmware;
              "build_date" := VStr build_date ]} ∧
    trimmed model ∧ trimmed firmware ∧ trimmed build_date.
Proof.
  destruct (parse_version_total output) as [info Hp]. exists info.
  pose proof Hp as H. unfold _parse_version in H.
  apply bind_Ok in H as (i1 & H1 & H). apply bind_Ok in H as (i2 & H2 & H).
  apply bind_Ok in H as (i3 & H3 & [= <-]).
  destruct (set_if_stripped _ _ _ _ _ H1 eq_refl) as (m & Em & Tm).
  { exists "Unknown". split; [reflexivity|apply trimmed_unknown]. }
  destruct (set_if_stripped _ _ _ _ _ H2 eq_refl) as (f & Ef & Tf).
  { exists "Unknown". rewrite (set_if_other _ _ _ _ _ "firmware" H1) by done.
    split; [reflexivity|apply trimmed_unknown]. }
  destruct (set_if_stripped _ _ _ _ _ H3 eq_refl) as (b & Eb & Tb).
  { exists "Unknown". rewrite (set_if_other _ _ _ _ _ "build_date" H2) by done.
    rewrite (set_if_other _ _ _ _ _ "build_date" H1) by done.
    split; [reflexivity|apply trimmed_unknown]. }
  exists m, f, b. split_and!; try done.
  apply map_eq. intros k.
  destruct (decide (k = "model")) as [->|Hm].
  { rewrite (set_if_other _ _ _ _ _ "model" H3), (set_if_other _ _ _ _ _ "model" H2) by done.
    rewrite Em. reflexivity. }
  destruct (decide (k = "firmware")) as [->|Hf].
  { rewrite (set_if_other _ _ _ _ _ "firmware" H3) by done. rewrite Ef. reflexivity. }
  destruct (decide (k = "build_date")) as [->|Hbd].
  { rewrite Eb. reflexivity. }
  rewrite !lookup_insert_ne, lookup_singleton_ne by done.
  apply not_elem_of_dom. rewrite (parse_version_keys _ _ Hp). set_solver.
Qed.
End trimming.

(** ** The address and the mask *)

Section lan.
Import Re ReSpec.

End lan.

(** ** The order of the stations *)

Section order.
Import Re ReSpec.

Lemma omap_filter_raw (bs : list string) :
  (fun b => (fun raw => VStr (Py.upper raw)) <$> raw_mac b)
    <$> filter (fun b => is_Some (raw_mac b)) bs
  = (fun raw => Some (VStr (Py.upper raw))) <$> omap raw_mac bs.
Proof.
  induction bs as [|b bs IH]; [done|]. rewrite filter_cons.
  change (omap raw_mac (b :: bs))
    with (match raw_mac b with
          | Some y => y :: omap raw_mac bs
          | None => omap raw_mac bs
          end).
  destruct (decide (is_Some (raw_mac b))) as [[raw Hr]|Hn].
  - rewrite !fmap_cons, IH, Hr. reflexivity.
  - destruct (raw_mac b) as [raw|]; [by destruct Hn|]. exact IH.
Qed.

(** X4.  The records [_parse_clients] returns carry, in the order of
    the text, the MAC addresses of the blocks that have one, in upper
    case: no block with a MAC is dropped, none is repeated, none is
    reordered. *)
Theorem parse_clients_macs_in_order output clients :
  _parse_clients output = Ok clients →
  (fun client => client !! "mac") <$> clients =
    (fun raw => Some (VStr (Py.upper raw))) <$> omap raw_mac (blocks_of output).
Proof.
  intros Hp%parse_clients_spec. etrans; [|apply omap_filter_raw].
  induction Hp as [|b c bs cs Hbc _ IH]; [done|].
  rewrite !fmap_cons, IH. f_equal. by apply parse_client_mac.
Qed.

Lemma parse_clients_macs_in_order_witness :
  (fun client => client !! "mac") <$> [Sample.first_station; Sample.second_station] =
    (fun raw => Some (VStr (Py.upper raw))) <$> omap raw_mac (blocks_of Sample.two_stations).
Proof. apply parse_clients_macs_in_order. vm_compute. reflexivity. Defined.
End order.

(** ** Keys and signs, parser by parser *)

Section summary.
Import Re ReSpec.




End summary.

(** ** Texts a pattern matches in one way *)

Section determinate.
Import Re ReSpec.
Context {R : Type}.
Implicit Types (k : string → string → caps → option R) (x : R).

Lemma star_greedy_run p u rest (k : string → string → option R) x :
  Py.all_chars p u = true →
  match rest with String a _ => p a = false | EmptyString => True end →
  k u rest = Some x → star_greedy p (u +:+ rest) k = Some x.
Proof.
  revert k. induction u as [|a u IH]; intros k Hu Hrest Hk.
  - rewrite app_empty_l. destruct rest as [|b rest]; simpl; [done|].
    by rewrite Hrest.
  - apply andb_true_iff in Hu as [Ha Hu]. rewrite app_cons. simpl. rewrite Ha.
    by rewrite (IH (fun w r => k (String a w) r) Hu Hrest Hk).
Qed.

Lemma run_Star cs u rest c k x :
  Py.all_chars (cset_mem cs) u = true → stops cs rest →
  k u rest c = Some x → run (Star cs) (u +:+ rest) c k = Some x.
Proof. intros. simpl. by apply (star_greedy_run _ u rest (fun w r => k w r c)). Qed.

Lemma run_Plus cs u rest c k x :
  u ≠ "" → Py.all_chars (cset_mem cs) u = true → stops cs rest →
  k u rest c = Some x → run (Plus cs) (u +:+ rest) c k = Some x.
Proof.
  intros Hne Hu Hrest Hk. destruct u as [|a u]; [done|].
  apply andb_true_iff in Hu as [Ha Hu]. rewrite app_cons. simpl. rewrite Ha.
  by apply (star_greedy_run _ u rest (fun w r => k (String a w) r c)).
Qed.

Lemma lit_app l rest : lit l (l +:+ rest) = Some rest.
Proof.
  induction l as [|a l IH]; [done|]. rewrite app_cons. simpl.
  by rewrite Ascii.eqb_refl.
Qed.

Lemma run_Lit l rest c k : run (Lit l) (l +:+ rest) c k = k l rest c.
Proof. simpl. by rewrite lit_app. Qed.



Lemma run_Seq r1 r2 t c k :
  run (Seq r1 r2) t c k =
    run r1 t c (fun u1 t1 c1 => run r2 t1 c1 (fun u2 t2 c2 => k (u1 +:+ u2) t2 c2)).
Proof. done. Qed.

Lemma run_Group n r t c k :
  run (Group n r) t c k = run r t c (fun u rest c' => k u rest (<[n:=u]> c')).
Proof. done. Qed.
End determinate.

Section stops.
Import Re ReSpec.

Lemma space_not_digit a : Py.is_space a = true → Py.is_digit a = false.
Proof. destruct a as [[] [] [] [] [] [] [] []]; by vm_compute. Qed.

Lemma all_space ws : Py.all_chars (cset_mem space) ws = Py.all_chars Py.is_space ws.
Proof. induction ws as [|a ws IH]; [done|]. simpl. by rewrite IH, orb_false_r. Qed.

Lemma stops_digit_number ds rest : number ds → stops space (ds +:+ rest).
Proof.
  intros (Hne & Hd & _). destruct ds as [|a ds]; [done|]. simpl.
  apply andb_true_iff in Hd as [Ha _]. rewrite orb_false_r.
  destruct (Py.is_space a) eqn:Hs; [|done]. by rewrite (space_not_digit a Hs) in Ha.
Qed.

Lemma stops_blank ws rest : blank ws → stops digit rest → stops digit (ws +:+ rest).
Proof.
  intros Hw Hrest. destruct ws as [|a ws]; [done|]. simpl.
  apply andb_true_iff in Hw as [Ha _]. by rewrite orb_false_r, space_not_digit.
Qed.

Lemma number_int ds : number ds → Py.int (Some ds) = Ok (Py.digits_val 0 ds).
Proof. intros (? & ? & ?). by apply int_unsigned_ok. Qed.

Lemma number_all ds : number ds → Py.all_chars (cset_mem digit) ds = true.
Proof. intros (_ & ? & _). by rewrite all_digit. Qed.

Lemma number_ne ds : number ds → ds ≠ "".
Proof. by intros (? & _). Qed.
End stops.

(** ** Reading back: memory *)

Section memory_reading.
Import Re ReSpec.

(** X7.  [_parse_memory] reads back the percentage of a memory line:
    on the label, blanks, a number, blanks and a percent sign, followed
    by anything, it returns the number. *)
Theorem parse_memory_reads ds ws1 ws2 tail :
  number ds → blank ws1 → blank ws2 →
  _parse_memory ("memory usage:" +:+ ws1 +:+ ds +:+ ws2 +:+ "%" +:+ tail)
    = Ok (Py.digits_val 0 ds).
Proof.
  intros Hds H1 H2. unfold _parse_memory.
  assert (search Pat.memory ("memory usage:" +:+ ws1 +:+ ds +:+ ws2 +:+ "%" +:+ tail)
          = Some {| matched := "memory usage:" +:+ ws1 +:+ ds +:+ ws2 +:+ "%" +:+ "";
                    after := tail; groups := {[ 1%nat := ds ]} |}) as ->.
  { assert (match_here Pat.memory
              ("memory usage:" +:+ ws1 +:+ ds +:+ ws2 +:+ "%" +:+ tail)
            = Some {| matched := "memory usage:" +:+ ws1 +:+ ds +:+ ws2 +:+ "%" +:+ "";
                      after := tail; groups := {[ 1%nat := ds ]} |}) as Hh.
    { unfold match_here, Pat.memory, cat. simpl foldr.
      rewrite run_Seq, run_Lit. rewrite run_Seq.
      apply run_Star; [by rewrite all_space|by apply stops_digit_number|].
      rewrite run_Seq, run_Group.
      apply run_Plus; [by apply number_ne|by apply number_all| |].
      { by apply stops_blank. }
      rewrite run_Seq.
      apply run_Star; [by rewrite all_space|done|].
      rewrite run_Seq, run_Lit. change tail with ("" +:+ tail) at 1.
      rewrite run_Lit. reflexivity. }
    change (search Pat.memory ?t) with
      (match match_here Pat.memory t with Some m => Some m | None =>
         match t with String _ t' => search Pat.memory t' | EmptyString => None end end).
    by rewrite Hh. }
  unfold group. simpl groups. rewrite lookup_singleton_eq. by apply number_int.
Qed.

Lemma parse_memory_reads_witness : _parse_memory "memory usage: 53 %" = Ok 53.
Proof.
  apply (parse_memory_reads "53" " " " " ""); repeat split;
    (done || (unfold Py.int_max_str_digits; simpl; lia)).
Defined.
End memory_reading.

(** ** Reading back: uptime *)

Section uptime_reading.
Import Re ReSpec.












End uptime_reading.

(** ** Reading back: the port row *)

Section port_reading.
Import Re ReSpec.
















End port_reading.

(** ** Reading back: the version report *)

Section version_reading.
Import Re ReSpec.





End version_reading.

(** ** Reading back: the lan line *)

Section lan_reading.
Import Re ReSpec.





End lan_reading.

(** ** Reading back: the radio slots *)

Section wlan_reading.
Import Re ReSpec.







End wlan_reading.

(** ** The commands of a poll *)

Section calls.
Import ReSpec.
Implicit Types (σ : session) (data : dict) (command : string).

Lemma with_trace_id σ : with_trace σ (trace σ) = σ.
Proof. by destruct σ. Qed.

Lemma with_trace_twice σ tr tr' : with_trace (with_trace σ tr) tr' = with_trace σ tr'.
Proof. done. Qed.


Lemma sends_ret {A} (a : A) : sends (mret a) [].
Proof.
  intros σ data Hd. exists []. split_and!; [done| |done|done].
  simpl. by rewrite app_nil_r, with_trace_id.
Qed.

Lemma sends_bind {A B} (m : M (session * dict) A) (f : A → M (session * dict) B) c1 c2 :
  sends m c1 → (∀ a, sends (f a) c2) → sends (m ≫= f) (c1 ++ c2).
Proof.
  intros Hm Hf σ data Hd. unfold mbind, M_bind.
  destruct (Hm σ data Hd) as (s1 & Hp1 & Hσ & Hs & Hfull).
  destruct (m (σ, data)) as [[a|e] [σ' data']]; simpl in *.
  - rewrite (Hfull (ex_intro _ a eq_refl)) in *. subst σ'.
    destruct (Hf a (with_trace σ (trace σ ++ (Call <$> c1))) data' Hs)
      as (s2 & Hp2 & Hσ2 & Hs2 & Hfull2).
    exists (c1 ++ s2). split_and!.
    + by apply prefix_app.
    + rewrite Hσ2. simpl. by rewrite fmap_app, app_assoc.
    + done.
    + intros Hok. by rewrite (Hfull2 Hok).
  - exists s1. split_and!; [by apply prefix_app_r|done|done|].
    by intros [? ?].
Qed.

Lemma sends_on_session command :
  sends (on_session (X:=dict) (async_execute_command command)) [command].
Proof.
  intros σ data Hd. unfold on_session.
  destruct (execute_spec command σ) as [o ->]. by exists [command].
Qed.

Lemma sends_parse {A} (r : result A) : sends (parse r) [].
Proof.
  intros σ data Hd. exists []. split_and!; [done| |done|done].
  simpl. by rewrite app_nil_r, with_trace_id.
Qed.

Lemma sends_update f :
  (∀ data data', shaped data → f data = Ok data' → shaped data') →
  sends (update (A:=session) f) [].
Proof.
  intros Hf σ data Hd. exists []. unfold update.
  destruct (f data) as [data'|e] eqn:Hfd; simpl;
    (split_and!; [done|by rewrite app_nil_r, with_trace_id|eauto|done]).
Qed.

Lemma sends_if_output output body :
  (∀ text, sends (body text) []) → sends (if_output output body) [].
Proof.
  intros Hb. destruct output as [text|]; simpl; [|apply sends_ret].
  destruct (String.eqb text ""); [apply sends_ret|apply Hb].
Qed.

Lemma sends_fetch_all : sends fetch_all polling_commands.
Proof.
  unfold fetch_all.
  change polling_commands with
    (["show version"] ++ [] ++ ["show system uptime"] ++ [] ++ ["show cpu all"] ++ [] ++
     ["show mem status"] ++ [] ++ ["show wireless-hal station info"] ++ [] ++
     ["show interface all"] ++ [] ++ ["show wlan all"] ++ [] ++
     ["show port status"] ++ []).
  repeat first
    [ apply sends_on_session
    | apply sends_bind; [|intros ?]
    | apply sends_if_output; intros ?;
      change (@nil string) with (@nil string ++ @nil string);
      (apply sends_bind; [apply sends_parse|intros ?]);
      apply sends_update; intros d d' (di & st & cl & nw & rd & ->);
      unfold set_item, set_item2; simpl; intros [= <-];
      first [ by exists di, st, cl, nw, rd | by eexists _, _, _, _, _ ] ].
Qed.










End calls.

Section aggregator_calls.
Implicit Types (σ : session).

(** X14.  Whatever the session and the device do, [async_get_data]
    sends the first so many of the eight polling commands, in their
    order and with nothing in between, and leaves the session otherwise
    as it was. *)
Theorem async_get_data_calls σ :
  ∃ sent, sent `prefix_of` polling_commands ∧
    (async_get_data σ).2 = with_trace σ (trace σ ++ (Call <$> sent)).
Proof.
  unfold async_get_data, try_except.
  destruct (sends_fetch_all σ empty_snapshot shaped_empty) as (sent & Hp & Hσ & _ & _).
  exists sent. split; [done|].
  by destruct (fetch_all (σ, empty_snapshot)) as [[[]|e] [σ' data]].
Qed.


End aggregator_calls.

(** ** The session manager and the command runner *)

Section manager.
Implicit Types (σ : session) (command : string).

(** The command runner, branch by branch. *)
Lemma execute_result command σ :
  async_execute_command command σ =
    (Ok (if HAS_ASYNCSSH σ && conn σ || HAS_PARAMIKO σ then answer σ command else None),
     with_trace σ (trace σ ++ [Call command])).
Proof.
  destruct σ as [ha hp cn dev tr].
  unfold async_execute_command, _execute_command_sync, try_except, transport,
    log, get, mbind, M_bind, mret, M_ret, with_trace, answer.
  destruct ha, cn, hp; cbn; try done.
  all: by destruct (dev (tr ++ [Call command]) command).
Qed.

Lemma unanswered_without_session σ :
  HAS_PARAMIKO σ = false → conn σ = false → unanswered σ.
Proof.
  intros Hp Hc tr command. rewrite execute_result. simpl.
  by rewrite Hp, Hc, andb_false_r.
Qed.

Lemma get_data_unanswered σ :
  unanswered σ →
  async_get_data σ = (Ok empty_snapshot, with_trace σ (trace σ ++ (Call <$> polling_commands))).
Proof.
  intros Hun. unfold async_get_data, try_except.
  destruct σ as [ha hp cn dev tr];
    unfold fetch_all, mbind, M_bind, on_session;
    change {| HAS_ASYNCSSH := ha; HAS_PARAMIKO := hp; conn := cn;
              device := dev; trace := tr |}
      with (with_trace {| HAS_ASYNCSSH := ha; HAS_PARAMIKO := hp; conn := cn;
                          device := dev; trace := tr |} tr);
    repeat (rewrite (execute_unanswered _ _ _ Hun); simpl).
  unfold with_trace. simpl. by rewrite <- !app_assoc.
Qed.

(** X16.  [async_execute_command] never raises and records one call.
    It returns what the device gives when asyncssh holds a connection or
    paramiko was imported, and the absence value otherwise or when the
    device's call raises. *)
Theorem async_execute_command_result command σ :
  async_execute_command command σ =
    (Ok (if HAS_ASYNCSSH σ && conn σ || HAS_PARAMIKO σ then answer σ command else None),
     with_trace σ (trace σ ++ [Call command])).
Proof. apply execute_result. Qed.

Lemma connect_result opened σ :
  async_connect opened σ =
    if HAS_ASYNCSSH σ || HAS_PARAMIKO σ then
      match opened with
      | Ok _ => (Ok true, with_conn σ true)
      | Raise _ => (Ok false, σ)
      end
    else (Ok false, σ).
Proof.
  unfold async_connect, _connect_paramiko_sync, try_except, parse, get, set_conn,
    mbind, M_bind, mret, M_ret.
  destruct (HAS_ASYNCSSH σ), (HAS_PARAMIKO σ), opened as [[]|e]; done.
Qed.

Lemma disconnect_result closed σ :
  async_disconnect closed σ =
    (Ok (),
     if conn σ then
       if HAS_ASYNCSSH σ then
         match closed with Ok _ => with_conn σ false | Raise _ => σ end
       else if HAS_PARAMIKO σ then with_conn σ false else σ
     else σ).
Proof.
  unfold async_disconnect, _disconnect_paramiko_sync, try_except, parse, get,
    set_conn, mbind, M_bind, mret, M_ret.
  destruct (conn σ) eqn:Hc, (HAS_ASYNCSSH σ), (HAS_PARAMIKO σ), closed as [[]|e];
    simpl; rewrite ?Hc; done.
Qed.

Lemma init_has_library a p far_end σ :
  __init__ a p far_end = Some σ →
  HAS_ASYNCSSH σ || HAS_PARAMIKO σ = true ∧ conn σ = false ∧
  device σ = far_end ∧ trace σ = [].
Proof.
  unfold __init__. destruct a, p; simpl; intros [= <-]; done.
Qed.

(** X17.  On an object that [__init__] returned, [async_connect] never
    raises and reports what the library's connect call gave: True and a
    connection held when it returned, False and the object untouched when
    it raised.  The ImportError branch is never taken. *)
Theorem async_connect_reports opened a p far_end σ :
  __init__ a p far_end = Some σ →
  async_connect opened σ =
    match opened with
    | Ok _ => (Ok true, with_conn σ true)
    | Raise _ => (Ok false, σ)
    end.
Proof.
  intros (Hl & _)%init_has_library. by rewrite connect_result, Hl.
Qed.

Lemma async_connect_reports_witness :
  async_connect (Raise TransportError)
      {| HAS_ASYNCSSH := false; HAS_PARAMIKO := true; conn := false;
         device := device Sample.partial; trace := [] |} =
    (Ok false,
     {| HAS_ASYNCSSH := false; HAS_PARAMIKO := true; conn := false;
        device := device Sample.partial; trace := [] |}).
Proof.
  apply (async_connect_reports (Raise TransportError) false true (device Sample.partial)).
  reflexivity.
Defined.

(** X18.  With an SSH library imported, [async_disconnect] never raises
    and drops the connection when closing it succeeded or the library is
    paramiko; a second call, whatever closing would give, changes
    nothing. *)
Theorem async_disconnect_releases closed closed' σ :
  HAS_ASYNCSSH σ || HAS_PARAMIKO σ = true →
  closed = Ok () ∨ HAS_ASYNCSSH σ = false →
  async_disconnect closed σ = (Ok (), with_conn σ false) ∧
  async_disconnect closed' (with_conn σ false) = (Ok (), with_conn σ false).
Proof.
  intros Hl Hc. rewrite !disconnect_result. simpl. split; [|done].
  f_equal. destruct σ as [ha hp [] dev tr]; simpl in *; [|done].
  destruct ha; simpl in *.
  - by destruct Hc as [->|].
  - by rewrite Hl.
Qed.

Lemma async_disconnect_releases_witness :
  async_disconnect (Ok ()) Sample.partial = (Ok (), with_conn Sample.partial false) ∧
  async_disconnect (Raise TransportError) (with_conn Sample.partial false) =
    (Ok (), with_conn Sample.partial false).
Proof.
  apply (async_disconnect_releases (Ok ()) (Raise TransportError) Sample.partial).
  - reflexivity.
  - by left.
Defined.

(** X19.  When closing an asyncssh connection raises,
    [async_disconnect] swallows the exception and the object keeps the
    connection it could not close. *)
Theorem async_disconnect_keeps_failed_close e σ :
  HAS_ASYNCSSH σ = true → conn σ = true →
  async_disconnect (Raise e) σ = (Ok (), σ).
Proof. intros Ha Hc. by rewrite disconnect_result, Ha, Hc. Qed.

Lemma async_disconnect_keeps_failed_close_witness :
  async_disconnect (Raise TransportError) Sample.partial = (Ok (), Sample.partial).
Proof. by apply (async_disconnect_keeps_failed_close TransportError Sample.partial). Defined.

(** X20.  Where only asyncssh was imported, a poll after a disconnect
    still records the eight calls and returns the empty snapshot. *)
Theorem poll_after_disconnect σ :
  HAS_ASYNCSSH σ = true → HAS_PARAMIKO σ = false →
  async_get_data (async_disconnect (Ok ()) σ).2 =
    (Ok empty_snapshot,
     with_trace (with_conn σ false) (trace σ ++ (Call <$> polling_commands))).
Proof.
  intros Ha Hp. rewrite disconnect_result, Ha. simpl.
  destruct (conn σ) eqn:Hc.
  - by rewrite get_data_unanswered by by apply unanswered_without_session.
  - rewrite get_data_unanswered by by apply unanswered_without_session.
    destruct σ; simpl in *. by subst.
Qed.

Lemma poll_after_disconnect_witness :
  async_get_data (async_disconnect (Ok ()) Sample.partial).2 =
    (Ok empty_snapshot,
     with_trace (with_conn Sample.partial false)
       (trace Sample.partial ++ (Call <$> polling_commands))).
Proof. apply (poll_after_disconnect Sample.partial); reflexivity. Defined.

(** X21.  Where only paramiko was imported, a command sent after a
    disconnect still reaches the device and returns what it gives: the
    runner opens a client of its own. *)
Theorem paramiko_runs_after_disconnect closed command σ :
  HAS_ASYNCSSH σ = false → HAS_PARAMIKO σ = true →
  (async_execute_command command (async_disconnect closed σ).2).1 =
    Ok (answer σ command).
Proof.
  intros Ha Hp. rewrite disconnect_result, Ha, Hp, execute_result.
  destruct (conn σ); simpl; by rewrite Ha, Hp.
Qed.

Lemma paramiko_runs_after_disconnect_witness :
  (async_execute_command "show mem status"
     (async_disconnect (Ok ())
        {| HAS_ASYNCSSH := false; HAS_PARAMIKO := true; conn := true;
           device := device Sample.partial; trace := [] |}).2).1 =
    Ok (Some "memory usage: 53%").
Proof.
  by apply (paramiko_runs_after_disconnect (Ok ()) "show mem status"
              {| HAS_ASYNCSSH := false; HAS_PARAMIKO := true; conn := true;
                 device := device Sample.partial; trace := [] |}).
Defined.
End manager.

(** ** The switch and the button *)

Section controls.
Implicit Types (σ : session) (is_on : bool).

Lemma toggle_result enable σ :
  async_toggle_guest_ssid enable σ =
    (Ok true,
     with_trace σ (trace σ ++ (guest_commands enable ≫= fun c => [Call c; Sleep 500]))).
Proof.
  unfold async_toggle_guest_ssid, try_except, mbind, M_bind.
  by rewrite send_all_spec.
Qed.

(** X22.  The switch never raises, and its flag after [async_turn_on]
    is True and after [async_turn_off] False, whatever the device answered
    and whatever the host's state write gave; the session is left as
    [async_toggle_guest_ssid] leaves it. *)
Theorem switch_shows_last_command written σ is_on :
  async_turn_on written (σ, is_on) =
    (Ok (), ((async_toggle_guest_ssid true σ).2, true)) ∧
  async_turn_off written (σ, is_on) =
    (Ok (), ((async_toggle_guest_ssid false σ).2, false)).
Proof.
  unfold async_turn_on, async_turn_off, try_except, on_session, mbind, M_bind.
  rewrite !toggle_result. simpl. by destruct written as [[]|e].
Qed.

(** X23.  Pressing the reboot button never raises and sends one
    command, reboot, whatever the device answers. *)
Theorem async_press_sends_reboot σ :
  async_press σ = (Ok (), with_trace σ (trace σ ++ [Call "reboot"])).
Proof.
  unfold async_press, async_reboot, try_except, mbind, M_bind.
  by destruct (execute_spec "reboot" σ) as [[text|] ->].
Qed.
End controls.

(** ** The types inside a snapshot *)

Section typed_snapshots.
Import Re ReSpec.
Implicit Types (σ : session) (data : dict).

Lemma keeps_ret' P {A} (a : A) : keeps P (mret a).
Proof. by intros σ data. Qed.

Lemma keeps_bind' P {A B} (m : M (session * dict) A) (f : A → M (session * dict) B) :
  keeps P m → (∀ a, keeps P (f a)) → keeps P (m ≫= f).
Proof.
  intros Hm Hf σ data Hd. unfold mbind, M_bind. specialize (Hm σ data Hd).
  destruct (m (σ, data)) as [[a|e] [σ' data']]; simpl in *; [|done].
  by apply Hf.
Qed.

Lemma keeps_on_session' P {A} (m : M session A) : keeps P (on_session m).
Proof. intros σ data Hd. unfold on_session. by destruct (m σ). Qed.

Lemma keeps_parse' P {A} (r : result A) (f : A → M (session * dict) ()) :
  (∀ a, r = Ok a → keeps P (f a)) → keeps P (parse r ≫= f).
Proof.
  intros Hf σ data Hd. unfold mbind, M_bind, parse.
  destruct r as [a|e]; simpl; [|done]. by apply Hf.
Qed.

Lemma keeps_update' P f :
  (∀ data data', P data → f data = Ok data' → P data') →
  keeps P (update (A:=session) f).
Proof.
  intros Hf σ data Hd. unfold update.
  destruct (f data) as [data'|e] eqn:Hfd; simpl; eauto.
Qed.

Lemma keeps_if_output' P output body :
  (∀ text, keeps P (body text)) → keeps P (if_output output body).
Proof.
  intros Hb. destruct output as [text|]; simpl; [|apply keeps_ret'].
  destruct (String.eqb text ""); [apply keeps_ret'|apply Hb].
Qed.

(** The band of a station record is a string. *)
Lemma parse_client_band block client v :
  parse_client block = Ok client → client !! "band" = Some v → ∃ s, v = VStr s.
Proof.
  unfold parse_client. intros H.
  apply bind_Ok in H as (c1 & H1 & H). apply bind_Ok in H as (c2 & H2 & H).
  apply bind_Ok in H as (c3 & H3 & H). apply bind_Ok in H as (c4 & H4 & H).
  apply bind_Ok in H as (c5 & H5 & H). apply bind_Ok in H as (c6 & H6 & H).
  apply bind_Ok in H as (c7 & H7 & H). apply bind_Ok in H as (c8 & H8 & H).
  apply bind_Ok in H as (c9 & H9 & H). apply bind_Ok in H as (c10 & H10 & H).
  apply bind_Ok in H as (c11 & H11 & H). apply bind_Ok in H as (c12 & H12 & H).
  injection H as <-.
  rewrite (set_if_other _ _ _ _ _ "band" H12) by done.
  rewrite (set_if_other _ _ _ _ _ "band" H11) by done.
  rewrite (set_if_other _ _ _ _ _ "band" H10) by done.
  rewrite (set_if_other _ _ _ _ _ "band" H9) by done.
  rewrite (set_if_other _ _ _ _ _ "band" H8) by done.
  destruct (search Pat.band block) as [m|] eqn:Hs.
  - apply set_if_Some in H7 as (w & Hw & ->). rewrite lookup_insert_eq.
    destruct (group_present _ _ _ 1 _ (search_sound _ _ _ Hs) eq_refl) as [g Hg].
    unfold as_is in Hw. rewrite Hg in Hw. simpl in Hw. injection Hw as <-.
    intros [= <-]. by exists g.
  - injection H7 as <-.
    rewrite (set_if_other _ _ _ _ _ "band" H6) by done.
    rewrite (set_if_other _ _ _ _ _ "band" H5) by done.
    rewrite (set_if_other _ _ _ _ _ "band" H4) by done.
    assert (c3 !! "band" = c2 !! "band") as ->.
    { destruct (search Pat.display_ssid block).
      - apply bind_Ok in H3 as (w & _ & [= <-]). by rewrite lookup_insert_ne.
      - destruct (search Pat.ssid block); [|by simplify_eq].
        apply bind_Ok in H3 as (w & _ & [= <-]). by rewrite lookup_insert_ne. }
    rewrite (set_if_other _ _ _ _ _ "band" H2) by done.
    rewrite (set_if_other _ _ _ _ _ "band" H1) by done.
    by rewrite lookup_empty.
Qed.

Lemma parse_clients_stations t clients :
  _parse_clients t = Ok clients → Forall station (VDict <$> clients).
Proof.
  intros H%parse_clients_spec. apply Forall_fmap.
  induction H as [|b c bs cs Hbc _ IH]; constructor; [|done].
  exists c. split; [done|]. intros v. by apply (parse_client_band b).
Qed.

Lemma parse_interfaces_no_port t network :
  _parse_interfaces t = Ok network → network !! "port" = None.
Proof.
  unfold _parse_interfaces. intros H. apply bind_Ok in H as (n & Hn & [= <-]).
  rewrite lookup_insert_ne by done.
  destruct (search Pat.lan t); injection Hn as <-; reflexivity.
Qed.

Lemma typed_empty : typed empty_snapshot.
Proof. exists ∅, ∅, [], ∅, ∅. split_and!; [done|done|done|done|constructor]. Qed.

Lemma typed_shaped data : typed data → shaped data.
Proof. intros (di & st & cl & nw & rd & -> & _). by exists di, st, cl, nw, rd. Qed.

Lemma keeps_typed_fetch_all : keeps typed fetch_all.
Proof.
  unfold fetch_all.
  repeat first
    [ apply keeps_on_session'
    | apply keeps_if_output'; intros ?; apply keeps_parse';
      intros ? ?; apply keeps_update';
      intros d d' (di & st & cl & nw & rd & -> & Hu & Hc & Hp & Hs);
      unfold set_item, set_item2; simpl; intros [= <-]
    | apply keeps_bind'; [|intros ?] ].
  - exists a0, st, cl, nw, rd. by split_and!.
  - exists di, (<["uptime" := VInt a2]> st), cl, nw, rd. split_and!; try done.
    + intros v. rewrite lookup_insert_eq. intros [= <-]. by eexists.
    + intros v. rewrite lookup_insert_ne by done. apply Hc.
  - exists di, (<["cpu" := VDict a4]> st), cl, nw, rd. split_and!; try done.
    + intros v. rewrite lookup_insert_ne by done. apply Hu.
    + intros v. rewrite lookup_insert_eq. intros [= <-]. by eexists.
  - exists di, (<["memory" := VInt a6]> st), cl, nw, rd. split_and!; try done.
    + intros v. rewrite lookup_insert_ne by done. apply Hu.
    + intros v. rewrite lookup_insert_ne by done. apply Hc.
  - exists di, st, (VDict <$> a8), nw, rd. split_and!; try done.
    by eapply parse_clients_stations.
  - exists di, st, cl, a10, rd. split_and!; try done.
    intros v. by erewrite parse_interfaces_no_port.
  - exists di, st, cl, nw, a12. by split_and!.
  - exists di, st, cl, (<["port" := VDict a14]> nw), rd. split_and!; try done.
    intros v. rewrite lookup_insert_eq. intros [= <-]. by eexists.
Qed.

Lemma get_data_typed σ : ∃ data, (async_get_data σ).1 = Ok data ∧ typed data.
Proof.
  unfold async_get_data, try_except.
  pose proof (keeps_typed_fetch_all σ empty_snapshot typed_empty) as Ht.
  destruct (fetch_all (σ, empty_snapshot)) as [[[]|e] [σ' data]]; simpl in *; eauto.
Qed.
End typed_snapshots.

(** ** The sensors on a polled snapshot *)

Section sensors.
Implicit Types (σ : session) (data : dict).

Lemma count_band_returns needle clients :
  Forall station clients → is_Ok (Host.count_band needle (VList clients)).
Proof.
  intros Hs. unfold Host.count_band. simpl.
  apply bind_is_Ok; [|intros hits _; by eexists].
  apply mapM_is_Ok. eapply Forall_impl; [exact Hs|].
  intros c (d & -> & Hband). simpl.
  destruct (d !! "band") as [v|] eqn:Hv; simpl; [|by eexists].
  destruct (Hband v eq_refl) as [s ->]. by eexists.
Qed.

Lemma sensors_return_typed data :
  typed data →
  Forall (fun native_value => is_Ok (native_value data)) sensors ∧
  is_Ok (ZyxelUptimeSensor.extra_state_attributes data).
Proof.
  intros (di & st & cl & nw & rd & -> & Hu & Hc & Hp & Hs).
  assert (is_Ok (ZyxelUptimeSensor.native_value
                   {[ "device_info" := VDict di; "status" := VDict st;
                      "clients" := VList cl; "network" := VDict nw;
                      "radio" := VDict rd ]})) as Hup by by eexists.
  split.
  - unfold sensors. repeat apply Forall_cons_2; try apply Forall_nil_2; try done.
    + by eexists.
    + unfold ZyxelCPUSensor.native_value, Host.section.
      change (default _ (_ !! "status")) with (VDict st). simpl.
      destruct (st !! "cpu") as [v|] eqn:Hv; simpl; [|by eexists].
      destruct (Hc v eq_refl) as [d ->]. by eexists.
    + unfold ZyxelCPU1MinSensor.native_value, Host.section.
      change (default _ (_ !! "status")) with (VDict st). simpl.
      destruct (st !! "cpu") as [v|] eqn:Hv; simpl; [|by eexists].
      destruct (Hc v eq_refl) as [d ->]. by eexists.
    + unfold ZyxelCPU5MinSensor.native_value, Host.section.
      change (default _ (_ !! "status")) with (VDict st). simpl.
      destruct (st !! "cpu") as [v|] eqn:Hv; simpl; [|by eexists].
      destruct (Hc v eq_refl) as [d ->]. by eexists.
    + by eexists.
    + by eexists.
    + by apply count_band_returns.
    + by apply count_band_returns.
    + unfold ZyxelPortStatusSensor.native_value, Host.section.
      change (default _ (_ !! "network")) with (VDict nw). simpl.
      destruct (nw !! "port") as [v|] eqn:Hv; simpl; [|by eexists].
      destruct (Hp v eq_refl) as [d ->]. by eexists.
    + unfold ZyxelPortTxRateSensor.native_value, Host.section.
      change (default _ (_ !! "network")) with (VDict nw). simpl.
      destruct (nw !! "port") as [v|] eqn:Hv; simpl; [|by eexists].
      destruct (Hp v eq_refl) as [d ->]. by eexists.
    + unfold ZyxelPortRxRateSensor.native_value, Host.section.
      change (default _ (_ !! "network")) with (VDict nw). simpl.
      destruct (nw !! "port") as [v|] eqn:Hv; simpl; [|by eexists].
      destruct (Hp v eq_refl) as [d ->]. by eexists.
    + unfold ZyxelPortTxBytesSensor.native_value, Host.section.
      change (default _ (_ !! "network")) with (VDict nw). simpl.
      destruct (nw !! "port") as [v|] eqn:Hv; simpl; [|by eexists].
      destruct (Hp v eq_refl) as [d ->]. by eexists.
    + unfold ZyxelPortRxBytesSensor.native_value, Host.section.
      change (default _ (_ !! "network")) with (VDict nw). simpl.
      destruct (nw !! "port") as [v|] eqn:Hv; simpl; [|by eexists].
      destruct (Hp v eq_refl) as [d ->]. by eexists.
    + by eexists.
    + by eexists.
  - unfold ZyxelUptimeSensor.extra_state_attributes, ZyxelUptimeSensor.native_value,
      Host.section.
    change (default _ (_ !! "status")) with (VDict st). simpl.
    destruct (st !! "uptime") as [v|] eqn:Hv; simpl.
    + destruct (Hu v eq_refl) as [z ->]. simpl. destruct (z =? 0); by eexists.
    + by eexists.
Qed.

(** X24.  On every snapshot [async_get_data] can return, whatever the
    session and the device did, the [native_value] of each of the
    sixteen sensors returns, and so do the attributes of the uptime
    sensor: no [get] meets a value that is not a dictionary, no band is
    anything but a string, the uptime is a number. *)
Theorem sensors_return_on_polled_data σ :
  ∃ data,
    (async_get_data σ).1 = Ok data ∧
    Forall (fun native_value => is_Ok (native_value data)) sensors ∧
    is_Ok (ZyxelUptimeSensor.extra_state_attributes data).
Proof.
  destruct (get_data_typed σ) as (data & Hd & Ht).
  exists data. split; [done|]. by apply sensors_return_typed.
Qed.
End sensors.

(** ** The attributes of the uptime sensor *)

Section uptime_attributes.
Implicit Types (data : dict) (uptime : Z).

Lemma uptime_or_zero uptime :
  Host.number (if truthy (VInt uptime) then VInt uptime else VInt 0) = Ok uptime.
Proof. simpl. destruct (uptime =? 0) eqn:E; simpl; [|done]. f_equal. lia. Qed.

(** X25.  For an uptime that is not negative the attributes of the
    uptime sensor are whole days, hours below 24 and minutes below 60
    that fall short of the uptime by less than a minute. *)
Theorem uptime_attributes_split data uptime :
  ZyxelUptimeSensor.native_value data = Ok (VInt uptime) → 0 ≤ uptime →
  ∃ days hours minutes,
    ZyxelUptimeSensor.extra_state_attributes data =
      Ok {[ "days" := VInt days; "hours" := VInt hours; "minutes" := VInt minutes;
            "formatted" :=
              VStr (Host.str days +:+ "d " +:+ Host.str hours +:+ "h " +:+
                    Host.str minutes +:+ "m") ]} ∧
    0 ≤ days ∧ 0 ≤ hours < 24 ∧ 0 ≤ minutes < 60 ∧
    0 ≤ uptime - (days * 86400 + hours * 3600 + minutes * 60) < 60.
Proof.
  intros Hv Hu. unfold ZyxelUptimeSensor.extra_state_attributes. rewrite Hv.
  change (Ok (VInt uptime) ≫= ?f) with (f (VInt uptime)). cbv beta.
  rewrite uptime_or_zero.
  eexists _, _, _. split; [reflexivity|].
  Z.to_euclidean_division_equations. lia.
Qed.

Lemma uptime_attributes_split_witness :
  ∃ days hours minutes,
    ZyxelUptimeSensor.extra_state_attributes
        {[ "status" := VDict {[ "uptime" := VInt 106480 ]} ]} =
      Ok {[ "days" := VInt days; "hours" := VInt hours; "minutes" := VInt minutes;
            "formatted" :=
              VStr (Host.str days +:+ "d " +:+ Host.str hours +:+ "h " +:+
                    Host.str minutes +:+ "m") ]} ∧
    0 ≤ days ∧ 0 ≤ hours < 24 ∧ 0 ≤ minutes < 60 ∧
    0 ≤ 106480 - (days * 86400 + hours * 3600 + minutes * 60) < 60.
Proof.
  apply (uptime_attributes_split {[ "status" := VDict {[ "uptime" := VInt 106480 ]} ]}).
  - reflexivity.
  - lia.
Defined.

(** X26.  The attributes of the uptime sensor give back the days, hours
    and minutes of an uptime [d * 86400 + h * 3600 + m * 60 + s] with
    [h < 24], [m < 60] and [s < 60]. *)
Theorem uptime_attributes_round_trip data d h m s :
  0 ≤ d → 0 ≤ h < 24 → 0 ≤ m < 60 → 0 ≤ s < 60 →
  ZyxelUptimeSensor.native_value data =
    Ok (VInt (d * 86400 + h * 3600 + m * 60 + s)) →
  ZyxelUptimeSensor.extra_state_attributes data =
    Ok {[ "days" := VInt d; "hours" := VInt h; "minutes" := VInt m;
          "formatted" :=
            VStr (Host.str d +:+ "d " +:+ Host.str h +:+ "h " +:+
                  Host.str m +:+ "m") ]}.
Proof.
  intros Hd Hh Hm Hs Hv. unfold ZyxelUptimeSensor.extra_state_attributes. rewrite Hv.
  change (Ok (VInt ?u) ≫= ?f) with (f (VInt u)). cbv beta.
  rewrite uptime_or_zero.
  change (Ok ?x ≫= ?f) with (f x). cbv beta zeta.
  set (u := d * 86400 + h * 3600 + m * 60 + s).
  assert (u `div` 86400 = d) as -> by (subst u; Z.to_euclidean_division_equations; lia).
  assert ((u `mod` 86400) `div` 3600 = h) as ->
    by (subst u; Z.to_euclidean_division_equations; lia).
  assert ((u `mod` 3600) `div` 60 = m) as ->
    by (subst u; Z.to_euclidean_division_equations; lia).
  reflexivity.
Qed.

Lemma uptime_attributes_round_trip_witness :
  ZyxelUptimeSensor.extra_state_attributes
      {[ "status" := VDict {[ "uptime" := VInt 106480 ]} ]} =
    Ok {[ "days" := VInt 1; "hours" := VInt 5; "minutes" := VInt 34;
          "formatted" := VStr "1d 5h 34m" ]}.
Proof.
  apply (uptime_attributes_round_trip
           {[ "status" := VDict {[ "uptime" := VInt 106480 ]} ]} 1 5 34 40);
    (lia || reflexivity).
Defined.
End uptime_attributes.

(** ** The station counts *)

Section band_counts.
Implicit Types (σ : session) (data : dict).

Lemma count_band_bound needle clients :
  Forall station clients →
  ∃ n, Host.count_band needle (VList clients) = Ok (VInt n) ∧
       0 ≤ n ≤ Z.of_nat (length clients).
Proof.
  intros Hs. destruct (count_band_returns needle clients Hs) as [v Hv].
  unfold Host.count_band in Hv |- *. simpl in Hv |- *.
  apply bind_Ok in Hv as (hits & Hhits & [= <-]). rewrite Hhits.
  eexists. split; [reflexivity|].
  apply mapM_Ok, Forall2_length in Hhits. rewrite Hhits.
  pose proof (length_filter (fun hit => hit = true) hits). lia.
Qed.

(** X27.  On every snapshot [async_get_data] can return, the three
    station sensors return numbers, and neither the count of the 2.4 GHz
    band nor that of the 5 GHz band exceeds the count of stations. *)
Theorem band_counts_within_clients σ :
  ∃ data clients on_24 on_5,
    (async_get_data σ).1 = Ok data ∧
    ZyxelClientsSensor.native_value data = Ok (VInt clients) ∧
    ZyxelClients24GHzSensor.native_value data = Ok (VInt on_24) ∧
    ZyxelClients5GHzSensor.native_value data = Ok (VInt on_5) ∧
    0 ≤ on_24 ≤ clients ∧ 0 ≤ on_5 ≤ clients.
Proof.
  destruct (get_data_typed σ) as (data & Hd & (di & st & cl & nw & rd & -> & _ & _ & _ & Hs)).
  destruct (count_band_bound "2.4" cl Hs) as (n24 & H24 & B24).
  destruct (count_band_bound "5" cl Hs) as (n5 & H5 & B5).
  eexists _, (Z.of_nat (length cl)), n24, n5. split; [exact Hd|].
  split_and!; first [done|exact H24|exact H5|lia].
Qed.
End band_counts.

(** ** The device identity in a partial snapshot *)

Section identity.
Implicit Types (σ : session) (data info : dict).

Lemma identified_set_item info k v data data' :
  k ∈ ({[ "clients"; "network"; "radio" ]} : gset string) →
  (k = "clients" → ∃ l, v = VList l) → (k ≠ "clients" → ∃ d, v = VDict d) →
  identified info data → set_item k v data = Ok data' → identified info data'.
Proof.
  intros Hk Hl Hd [(di & st & cl & nw & rd & ->) Hi] [= <-].
  apply elem_of_union in Hk as [[->%elem_of_singleton| ->%elem_of_singleton]%elem_of_union
                                | ->%elem_of_singleton].
  - destruct (Hl eq_refl) as [l ->]. split; [by exists di, st, l, nw, rd|done].
  - destruct (Hd ltac:(done)) as [d ->]. split; [by exists di, st, cl, d, rd|done].
  - destruct (Hd ltac:(done)) as [d ->]. split; [by exists di, st, cl, nw, d|done].
Qed.

Lemma identified_set_item2 info k1 k2 v data data' :
  k1 ∈ ({[ "status"; "network" ]} : gset string) →
  identified info data → set_item2 k1 k2 v data = Ok data' → identified info data'.
Proof.
  intros Hk [(di & st & cl & nw & rd & ->) Hi].
  apply elem_of_union in Hk as [->%elem_of_singleton| ->%elem_of_singleton];
    intros [= <-].
  - split; [by exists di, (<[k2:=v]> st), cl, nw, rd|done].
  - split; [by exists di, st, cl, (<[k2:=v]> nw), rd|done].
Qed.

Lemma bind_step {St A B} (m : M St A) (f : A → M St B) s a s' :
  m s = (Ok a, s') → (m ≫= f) s = f a s'.
Proof. intros H. unfold mbind, M_bind. by rewrite H. Qed.

Lemma identified_first text info :
  _parse_version text = Ok info →
  identified info (<["device_info" := VDict info]> empty_snapshot).
Proof. intros _. split; [by exists info, ∅, [], ∅, ∅|done]. Qed.

(** The steps of [async_get_data] after the first keep the identity. *)
Lemma keeps_identified_rest info σ1 data1 (rest : M (session * dict) ()) :
  keeps (identified info) rest → identified info data1 →
  identified info (rest (σ1, data1)).2.2.
Proof. intros K. apply K. Qed.

(** X28.  When the runner has a transport and the device answers
    [show version] with a text, the snapshot holds under device_info what
    [_parse_version] makes of that text, whatever the seven later
    commands give and even when a later parser raises. *)
Theorem device_info_survives σ text :
  HAS_ASYNCSSH σ && conn σ || HAS_PARAMIKO σ = true →
  answer σ "show version" = Some text → text ≠ "" →
  ∃ data info,
    (async_get_data σ).1 = Ok data ∧
    _parse_version text = Ok info ∧
    data !! "device_info" = Some (VDict info).
Proof.
  intros Hu Ha Hne.
  destruct (parse_version_total text) as [info Hinfo].
  cut (identified info (fetch_all (σ, empty_snapshot)).2.2).
  { intros [_ Hi]. unfold async_get_data, try_except.
    destruct (fetch_all (σ, empty_snapshot)) as [[[]|e] [σ' data]];
      by exists data, info. }
  unfold fetch_all.
  rewrite (bind_step _ _ _ (Some text)
             (with_trace σ (trace σ ++ [Call "show version"]), empty_snapshot)).
  2:{ unfold on_session. by rewrite execute_result, Hu, Ha. }
  rewrite (bind_step _ _ _ ()
             (with_trace σ (trace σ ++ [Call "show version"]),
              <["device_info" := VDict info]> empty_snapshot)).
  2:{ unfold if_output. destruct (String.eqb_spec text ""); [done|].
      unfold mbind, M_bind, parse, update, set_item. by rewrite Hinfo. }
  apply keeps_identified_rest; [|by eapply identified_first].
  repeat first
    [ apply keeps_on_session'
    | apply keeps_if_output'; intros ?; apply keeps_parse';
      intros ? ?; apply keeps_update'; intros d d' Hd Hs;
      first [ by eapply identified_set_item2; [|exact Hd|exact Hs]; set_solver
            | by eapply identified_set_item; [| | |exact Hd|exact Hs];
              [ set_solver
              | intros E; first [discriminate E|by eexists]
              | intros E; first [by destruct E|by eexists] ] ]
    | apply keeps_bind'; [|intros ?] ].
Qed.

Lemma device_info_survives_witness :
  ∃ data info,
    (async_get_data
       {| HAS_ASYNCSSH := false; HAS_PARAMIKO := true; conn := false;
          device := fun _ command =>
            if String.eqb command "show version" then Ok Sample.version_text
            else Ok Sample.long_memory;
          trace := [] |}).1 = Ok data ∧
    _parse_version Sample.version_text = Ok info ∧
    data !! "device_info" = Some (VDict info).
Proof.
  apply (device_info_survives
           {| HAS_ASYNCSSH := false; HAS_PARAMIKO := true; conn := false;
              device := fun _ command =>
                if String.eqb command "show version" then Ok Sample.version_text
                else Ok Sample.long_memory;
              trace := [] |} Sample.version_text); done.
Defined.
End identity.
